(** * Ercolino: the control core of a two-wheeled self-balancing robot

    A shallow embedding of the firmware's main sketch (setup, loop,
    calibrate, readSensor, getAccAngle and the LED helpers) together with
    the properties its design document states about it.

    The target is an 8-bit AVR board: [int16_t] and [int32_t] are
    two's-complement integers, [unsigned long] is 32 bits wide, and both
    [float] and [double] are IEEE-754 binary32 numbers. *)

From Stdlib Require Import ZArith List Bool Lia QArith Qabs.
From Stdlib Require Import Floats.SpecFloat.
Import ListNotations.

Local Open Scope Z_scope.

(** ** Machine integers *)

Module MachineInt.

(** Two's-complement reduction of an integer to [w] bits. *)
Definition wrap_signed (w : Z) (z : Z) : Z :=
  (z + 2 ^ (w - 1)) mod 2 ^ w - 2 ^ (w - 1).

Definition wrap_unsigned (w : Z) (z : Z) : Z := z mod 2 ^ w.

Definition int16 (z : Z) : Z := wrap_signed 16 z.
Definition int32 (z : Z) : Z := wrap_signed 32 z.
Definition uint32 (z : Z) : Z := wrap_unsigned 32 z.

Definition in_int16 (z : Z) : Prop := -32768 <= z <= 32767.
Definition in_int32 (z : Z) : Prop := -2147483648 <= z <= 2147483647.

End MachineInt.

(** ** Binary32 floating point

    The numbers are the standard library's [spec_float] at precision 24
    and maximal exponent 128; arithmetic rounds to nearest, ties to even. *)

Module Float32.

Definition prec : Z := 24.
Definition emax : Z := 128.

Definition float : Type := spec_float.

Definition valid (x : float) : Prop := valid_binary prec emax x = true.

(** [float(n)] for an integer [n]. *)
Definition of_int (n : Z) : float := binary_normalize prec emax n 0 false.

Definition fneg (x : float) : float := SFopp x.
Definition fmul (x y : float) : float := SFmul prec emax x y.
Definition fdiv (x y : float) : float := SFdiv prec emax x y.
Definition flt (x y : float) : bool := SFltb x y.
Definition fgt (x y : float) : bool := SFltb y x.

(** The positive decimal literal [n / d], rounded to the nearest
    binary32 number as the compiler rounds it. *)
Definition literal (n d : Z) : float :=
  let '(q, e, l) := SFdiv_core_binary prec emax n 0 d 0 in
  binary_round_aux prec emax false q e l.

(** The exact rational value of a finite number (zero for the others). *)
Definition F2Q (x : float) : Q :=
  match x with
  | S754_finite s m e =>
      let n := cond_Zopp s (Zpos m) in
      match e with
      | Z0 => n # 1
      | Zpos p => (n * 2 ^ Zpos p) # 1
      | Zneg p => n # (2 ^ p)
      end
  | _ => 0%Q
  end.

Definition is_number (x : float) : bool :=
  match x with
  | S754_nan | S754_infinity _ => false
  | _ => true
  end.

End Float32.

Import MachineInt Float32.

(** ** External collaborators

    Everything the sketch calls but does not define: the MPU6050 driver,
    the Kalman filter, the PID corrector with its configuration menu (which
    acts on the corrector's own gains and setpoint), the motor driver, the
    ticker library, the maths library's [atan2] and the cost in
    microseconds of each operation. *)

Record Sample : Type := MkSample {
  s_ax : Z; s_ay : Z; s_az : Z;
  s_gx : Z; s_gy : Z; s_gz : Z
}.

Definition sample_in_int16 (s : Sample) : Prop :=
  in_int16 (s_ax s) /\ in_int16 (s_ay s) /\ in_int16 (s_az s) /\
  in_int16 (s_gx s) /\ in_int16 (s_gy s) /\ in_int16 (s_gz s).

Definition zero_sample : Sample := MkSample 0 0 0 0 0 0.

(** What the sketch does to the outside world, in the order it does it. *)
Inductive event : Type :=
| EvInitMotors
| EvRunMotors (pidOutput : float)
| EvStopMotors
| EvSensorInitialize
| EvTestConnection (ok : bool)
| EvGetMotion6 (raw : Sample)
| EvMicros (t : Z)
| EvDelay (ms : Z)
| EvDigitalWrite (level : bool)
| EvKalmanSetAngle (angle : float)
| EvKalmanGetAngle (accAngle gyroRate dt : float)
| EvUpdatePID (angle dt : float)
| EvPrintData (accAngle kalmanAngle scaled : float)
| EvSetupMenu.

Record Env : Type := MkEnv {
  (* MPU6050 *)
  testConnection : bool;
  sensor : nat -> Sample;            (* the k-th answer of getMotion6 *)
  (* Kalman.h *)
  Kalman : Type;
  kalman_new : Kalman;
  kalman_setAngle : Kalman -> float -> Kalman;
  kalman_getAngle : Kalman -> float -> float -> float -> float * Kalman;
  (* the PID corrector and its configuration menu *)
  PID : Type;
  pid_initial : PID;
  pid_update : PID -> float -> float -> float * PID;
  pid_setup_menu : PID -> PID;
  serial_available : bool;
  (* Ticker *)
  Ticker : Type;
  ticker_new : Ticker;               (* Ticker(blinkLed, 100, 0, MILLIS) *)
  ticker_start : Ticker -> Z -> Ticker;
  ticker_stop : Ticker -> Ticker;
  ticker_update : Ticker -> Z -> bool * Ticker;
  (* Math.h *)
  atan2 : float -> float -> float;
  (* time taken by each operation, in microseconds *)
  cost : event -> Z
}.

(** ** The actuation decision of [loop] *)

Inductive motor_cmd : Type :=
| RunMotors (pidOutput : float)
| StopMotors.

(** The core library's [abs] macro: [((x)>0?(x):-(x))]. *)
Definition abs (x : float) : float :=
  if fgt x (of_int 0) then x else fneg x.

(** [if (abs(kalmanAngle) < 30) runMotors(pidOutput); else stopMotors();] *)
Definition motor_gate (kalmanAngle pidOutput : float) : motor_cmd :=
  if flt (abs kalmanAngle) (of_int 30) then RunMotors pidOutput else StopMotors.

(** ** Machine state *)

Section Firmware.

Context (E : Env).

(** The sketch's global variables.  [cur] holds [ax .. gz] and
    [offsets] holds [ax_offset .. gz_offset]. *)
Record Globals : Type := MkGlobals {
  cur : Sample;
  offsets : Sample;
  startPositionIsUp : bool;
  oldTime : Z;
  KFilter : Kalman E;
  ledState : bool;
  ledTicker : Ticker E
}.

(** What lies outside the sketch: the true time in microseconds since
    power-up, how many samples the sensor has delivered, the corrector's
    own state, and the log of operations performed so far. *)
Record World : Type := MkWorld {
  clock : Z;
  reads : nat;
  pid : PID E;
  trace : list event
}.

Record Machine : Type := MkMachine { globals : Globals; world : World }.

Definition set_cur (v : Sample) (g : Globals) : Globals :=
  MkGlobals v (offsets g) (startPositionIsUp g) (oldTime g) (KFilter g) (ledState g) (ledTicker g).
Definition set_offsets (v : Sample) (g : Globals) : Globals :=
  MkGlobals (cur g) v (startPositionIsUp g) (oldTime g) (KFilter g) (ledState g) (ledTicker g).
Definition set_startPositionIsUp (v : bool) (g : Globals) : Globals :=
  MkGlobals (cur g) (offsets g) v (oldTime g) (KFilter g) (ledState g) (ledTicker g).
Definition set_oldTime (v : Z) (g : Globals) : Globals :=
  MkGlobals (cur g) (offsets g) (startPositionIsUp g) v (KFilter g) (ledState g) (ledTicker g).
Definition set_KFilter (v : Kalman E) (g : Globals) : Globals :=
  MkGlobals (cur g) (offsets g) (startPositionIsUp g) (oldTime g) v (ledState g) (ledTicker g).
Definition set_ledState (v : bool) (g : Globals) : Globals :=
  MkGlobals (cur g) (offsets g) (startPositionIsUp g) (oldTime g) (KFilter g) v (ledTicker g).
Definition set_ledTicker (v : Ticker E) (g : Globals) : Globals :=
  MkGlobals (cur g) (offsets g) (startPositionIsUp g) (oldTime g) (KFilter g) (ledState g) v.

(** Globals are zero-initialised before [setup] runs. *)
Definition power_on : Machine :=
  MkMachine
    (MkGlobals zero_sample zero_sample false 0 (kalman_new E) false (ticker_new E))
    (MkWorld 0 0%nat (pid_initial E) []).

(** ** A monad for the sketch: state, plus a way never to return *)

Inductive outcome (A : Type) : Type :=
| Done (a : A) (m : Machine)
| Hang (m : Machine).
Arguments Done {A} a m.
Arguments Hang {A} m.

Definition M (A : Type) : Type := Machine -> outcome A.

Definition ret {A} (a : A) : M A := fun m => Done a m.

Definition bind {A B} (c : M A) (k : A -> M B) : M B :=
  fun m => match c m with
           | Done a m' => k a m'
           | Hang m' => Hang m'
           end.

(** [while (1);] *)
Definition hang {A} : M A := fun m => Hang m.

Definition gets {A} (f : Globals -> A) : M A := fun m => Done (f (globals m)) m.

Definition modify (f : Globals -> Globals) : M unit :=
  fun m => Done tt (MkMachine (f (globals m)) (world m)).

Definition state_of {A} (o : outcome A) : Machine :=
  match o with Done _ m => m | Hang m => m end.

Definition is_done {A} (o : outcome A) : bool :=
  match o with Done _ _ => true | Hang _ => false end.

(** Perform an external operation: log it and let its time pass. *)
Definition emit (ev : event) : M unit :=
  fun m =>
    let w := world m in
    Done tt (MkMachine (globals m)
               (MkWorld (clock w + cost E ev) (reads w) (pid w) (trace w ++ [ev]))).

Definition advance (us : Z) : M unit :=
  fun m =>
    let w := world m in
    Done tt (MkMachine (globals m) (MkWorld (clock w + us) (reads w) (pid w) (trace w))).

Definition now : M Z := fun m => Done (clock (world m)) m.

Notation "x <- c ;; k" := (bind c (fun x => k))
  (at level 61, c at next level, right associativity).
Notation "c ;; k" := (bind c (fun _ => k))
  (at level 61, right associativity).

(** ** Board and library primitives *)

Definition micros : M Z :=
  t <- now ;;
  emit (EvMicros (uint32 t)) ;;
  ret (uint32 t).

Definition millis : M Z :=
  t <- now ;;
  ret (uint32 (t / 1000)).

Definition delay (ms : Z) : M unit :=
  emit (EvDelay ms) ;;
  advance (1000 * ms).

Definition digitalWrite (level : bool) : M unit := emit (EvDigitalWrite level).

(** [accelgyro.getMotion6(&ax, &ay, &az, &gx, &gy, &gz)] *)
Definition getMotion6 : M unit :=
  fun m =>
    let w := world m in
    let raw := sensor E (reads w) in
    Done tt (MkMachine (set_cur raw (globals m))
               (MkWorld (clock w + cost E (EvGetMotion6 raw)) (S (reads w)) (pid w)
                  (trace w ++ [EvGetMotion6 raw]))).

Definition runMotors (pidOutput : float) : M unit := emit (EvRunMotors pidOutput).
Definition stopMotors : M unit := emit EvStopMotors.
Definition initMotors : M unit := emit EvInitMotors.

Definition KFilter_setAngle (angle : float) : M unit :=
  emit (EvKalmanSetAngle angle) ;;
  modify (fun g => set_KFilter (kalman_setAngle E (KFilter g) angle) g).

Definition KFilter_getAngle (accAngle gyroRate dt : float) : M float :=
  emit (EvKalmanGetAngle accAngle gyroRate dt) ;;
  k <- gets KFilter ;;
  let '(angle, k') := kalman_getAngle E k accAngle gyroRate dt in
  modify (set_KFilter k') ;;
  ret angle.

Definition updatePID (angle dt : float) : M float :=
  emit (EvUpdatePID angle dt) ;;
  fun m =>
    let w := world m in
    let '(out, p') := pid_update E (pid w) angle dt in
    Done out (MkMachine (globals m) (MkWorld (clock w) (reads w) p' (trace w))).

Definition setup_menu : M unit :=
  emit EvSetupMenu ;;
  fun m =>
    let w := world m in
    Done tt (MkMachine (globals m)
               (MkWorld (clock w) (reads w) (pid_setup_menu E (pid w)) (trace w))).

(** ** The LED helpers *)

Definition blinkLed : M unit :=
  s <- gets ledState ;;
  digitalWrite s ;;
  modify (set_ledState (negb s)).

Definition turnOnLed : M unit :=
  digitalWrite true ;;
  modify (set_ledState true).

Definition turnOffLed : M unit :=
  digitalWrite false ;;
  modify (set_ledState false).

Definition ledTicker_start : M unit :=
  t <- millis ;;
  modify (fun g => set_ledTicker (ticker_start E (ledTicker g) t) g).

Definition ledTicker_stop : M unit :=
  modify (fun g => set_ledTicker (ticker_stop E (ledTicker g)) g).

(** [ledTicker.update()]: the ticker decides whether its callback,
    [blinkLed], is due. *)
Definition ledTicker_update : M unit :=
  t <- millis ;;
  tk <- gets ledTicker ;;
  let '(due, tk') := ticker_update E tk t in
  modify (set_ledTicker tk') ;;
  if due then blinkLed else ret tt.

(** ** [calibrate] *)

Fixpoint for_loop {A} (n : nat) (body : A -> M A) (acc : A) : M A :=
  match n with
  | O => ret acc
  | S n' => acc' <- body acc ;; for_loop n' body acc'
  end.

(** One pass of the sampling loop; [sums] holds [ax_sum .. gz_sum]. *)
Definition calibrate_body (sums : Sample) : M Sample :=
  ledTicker_update ;;
  getMotion6 ;;
  s <- gets cur ;;
  let sums' :=
    MkSample (int32 (s_ax sums + s_ax s)) (int32 (s_ay sums + s_ay s))
             (int32 (s_az sums + s_az s)) (int32 (s_gx sums + s_gx s))
             (int32 (s_gy sums + s_gy s)) (int32 (s_gz sums + s_gz s)) in
  delay 5 ;;
  ret sums'.

Definition with_ax (v : Z) (s : Sample) : Sample :=
  MkSample v (s_ay s) (s_az s) (s_gx s) (s_gy s) (s_gz s).

Definition calibrate : M unit :=
  sums <- for_loop 512 calibrate_body zero_sample ;;
  modify (set_offsets
            (MkSample (Z.shiftr (s_ax sums) 9) (Z.shiftr (s_ay sums) 9)
                      (Z.shiftr (s_az sums) 9) (Z.shiftr (s_gx sums) 9)
                      (Z.shiftr (s_gy sums) 9) (Z.shiftr (s_gz sums) 9))) ;;
  off <- gets offsets ;;
  if 0 <? s_ax off then
    modify (set_offsets (with_ax (int32 (s_ax off - 16384)) off)) ;;
    modify (set_startPositionIsUp true)
  else
    modify (set_offsets (with_ax (int32 (s_ax off + 16384)) off)) ;;
    modify (set_startPositionIsUp false).

(** ** [readSensor] *)

Definition readSensor : M unit :=
  getMotion6 ;;
  s <- gets cur ;;
  o <- gets offsets ;;
  modify (set_cur
            (MkSample (int16 (int32 (s_ax s - s_ax o))) (int16 (int32 (s_ay s - s_ay o)))
                      (int16 (int32 (s_az s - s_az o))) (int16 (int32 (s_gx s - s_gx o)))
                      (int16 (int32 (s_gy s - s_gy o))) (int16 (int32 (s_gz s - s_gz o))))).

(** ** [getAccAngle] *)

Definition RAD_TO_DEG : float :=
  literal 57295779513082320876798154814105 (10 ^ 30).

Definition getAccAngle (accX accZ : float) : float :=
  let angle := fmul (atan2 E accX (fneg accZ)) RAD_TO_DEG in
  angle.

(** ** [setup]

    Bus, serial-port and pin configuration and the informational prints
    ([Serial.println], compiled in by [PRINT_INFO]) are left out: they
    touch nothing the control core reads.  They do take time, which the
    clock of this model does not count: a duration of [setup] read off
    the model bounds the real one from below. *)

Definition setup : M unit :=
  initMotors ;;
  emit EvSensorInitialize ;;
  let conn_ok := testConnection E in
  emit (EvTestConnection conn_ok) ;;
  (if negb conn_ok then hang else ret tt) ;;
  ledTicker_start ;;
  delay 3000 ;;
  calibrate ;;
  ledTicker_stop ;;
  turnOffLed ;;
  modify (set_KFilter (kalman_new E)) ;;
  up <- gets startPositionIsUp ;;
  let startAngle := if up then literal 90 1 else fneg (literal 90 1) in
  KFilter_setAngle startAngle ;;
  delay 3000 ;;
  (if serial_available E then setup_menu else ret tt) ;;
  t <- micros ;;
  modify (set_oldTime t) ;;
  turnOnLed.

(** ** [loop] *)

(** The local variables of one pass through [loop]. *)
Record Cycle : Type := MkCycle {
  c_time : Z;
  c_dt_usec : Z;
  c_dt_sec : float;
  c_gyroYRate : float;
  c_accX : float;
  c_accZ : float;
  c_accAngle : float;
  c_kalmanAngle : float;
  c_pidOutput : float
}.

Definition loop : M Cycle :=
  time <- micros ;;
  old <- gets oldTime ;;
  let dt_usec := uint32 (time - old) in
  let dt_sec := fdiv (of_int dt_usec) (literal 1000000 1) in
  readSensor ;;
  s <- gets cur ;;
  let gyroYRate := fdiv (of_int (s_gy s)) (literal 131072 1000) in
  let accX := fdiv (fmul (of_int (s_ax s)) (literal 981 100)) (literal 16384 1) in
  let accZ := fdiv (fmul (of_int (s_az s)) (literal 981 100)) (literal 16384 1) in
  let accAngle := getAccAngle accX accZ in
  kalmanAngle <- KFilter_getAngle accAngle gyroYRate dt_sec ;;
  pidOutput <- updatePID kalmanAngle dt_sec ;;
  (if flt (abs kalmanAngle) (of_int 30)
   then runMotors pidOutput
   else stopMotors) ;;
  emit (EvPrintData accAngle kalmanAngle (fdiv pidOutput (of_int 10))) ;;
  modify (set_oldTime time) ;;
  delay 15 ;;
  ret (MkCycle time dt_usec dt_sec gyroYRate accX accZ accAngle kalmanAngle pidOutput).

(** ** The whole program: [setup] once, then [loop] again and again *)

Fixpoint loops (n : nat) : M (list Cycle) :=
  match n with
  | O => ret []
  | S n' => c <- loop ;; cs <- loops n' ;; ret (c :: cs)
  end.

Definition firmware (n : nat) : outcome (list Cycle) :=
  (setup ;; loops n) power_on.

End Firmware.

Arguments Done {E A} a m.
Arguments Hang {E A} m.
Arguments state_of {E A} o.
Arguments is_done {E A} o.
Arguments MkGlobals {E}.
Arguments MkWorld {E}.
Arguments MkMachine {E}.
Arguments cur {E} g.
Arguments offsets {E} g.
Arguments startPositionIsUp {E} g.
Arguments oldTime {E} g.
Arguments KFilter {E} g.
Arguments ledState {E} g.
Arguments ledTicker {E} g.
Arguments clock {E} w.
Arguments reads {E} w.
Arguments pid {E} w.
Arguments trace {E} w.
Arguments globals {E} m.
Arguments world {E} m.

(** ** The maths library's [atan2]

    [atan2] is the C library's.  Its documentation: the principal value
    of the arc tangent of [y/x], in radians, using the signs of both
    arguments to determine the quadrant of the result, which lies in
    [-pi, pi]; and, where signed zeros are kept apart (C99, F.9.1.4),
    [atan2(+-0, x)] is [+-0] for [x > 0] or [x = +0] and [+-pi] for
    [x < 0] or [x = -0], and [atan2(y, +-0)] is [pi/2] for [y > 0] and
    [-pi/2] for [y < 0].  In binary32 the library's pi and pi/2 are the
    numbers nearest to them, Arduino's [PI] and [HALF_PI]. *)

Definition PI : float := literal 31415926535897932 (10 ^ 16).
Definition HALF_PI : float := literal 15707963267948966 (10 ^ 16).



Definition signed (s : bool) (x : float) : float := if s then fneg x else x.


(** ** A test bench

    Concrete stand-ins for the collaborators, used to run the sketch:
    a ticker that fires every 100 ms while enabled, a filter that passes
    the accelerometer angle through, a proportional corrector, an [atan2]
    that answers on the axes as the C standard prescribes and with the
    diagonal of the quadrant everywhere else, and a sensor that answers
    from a given function. *)

Module Bench.

Record ticker : Type := MkTicker { enabled : bool; lastTime : Z }.

Definition ticker_tick (t : ticker) (ms : Z) : bool * ticker :=
  if enabled t && (100 <=? uint32 (ms - lastTime t))
  then (true, MkTicker true ms)
  else (false, t).

Definition quarter_pi_f : float := literal 7853981633974483 (10 ^ 16).
Definition three_quarter_pi_f : float := literal 23561944901923449 (10 ^ 16).

Definition atan2_axes (y x : float) : float :=
  match y, x with
  | S754_zero s, (S754_zero false | S754_finite false _ _) => S754_zero s
  | S754_zero s, (S754_zero true | S754_finite true _ _) => signed s PI
  | S754_finite s _ _, S754_zero _ => signed s HALF_PI
  | S754_finite s _ _, S754_finite false _ _ => signed s quarter_pi_f
  | S754_finite s _ _, S754_finite true _ _ => signed s three_quarter_pi_f
  | _, _ => S754_nan
  end.

Definition env (conn : bool) (readings : nat -> Sample) : Env :=
  {| testConnection := conn;
     sensor := readings;
     Kalman := float;
     kalman_new := of_int 0;
     kalman_setAngle := fun _ a => a;
     kalman_getAngle := fun _ acc _ _ => (acc, acc);
     PID := unit;
     pid_initial := tt;
     pid_update := fun p angle _ => (fmul (of_int 40) angle, p);
     pid_setup_menu := fun p => p;
     serial_available := false;
     Ticker := ticker;
     ticker_new := MkTicker false 0;
     ticker_start := fun _ ms => MkTicker true ms;
     ticker_stop := fun t => MkTicker false (lastTime t);
     ticker_update := ticker_tick;
     atan2 := atan2_axes;
     cost := fun _ => 100 |}.

Definition steady (s : Sample) : nat -> Sample := fun _ => s.

(** The robot at rest with a sensor that reads zero on every axis. *)
Definition still : Env := env true (steady zero_sample).

(** The robot lying flat with its reference axis down. *)
Definition face_down : Env := env true (steady (MkSample (-16200) 0 0 0 0 0)).

(** The robot at rest, but for one jolt during the first reading. *)
Definition jolt : Env :=
  env true (fun k => if (k =? 0)%nat then MkSample 0 (-1) 0 0 0 0 else zero_sample).

(** The robot leaning just off level: the reference axis reads 1 in 511
    of the first 512 readings and 0 afterwards. *)
Definition leaning : Env :=
  env true (fun k => if (k <? 511)%nat then MkSample 1 0 0 0 0 0 else zero_sample).

(** The same collaborators with a ticker that is never due. *)
Definition no_blink (E : Env) : Env :=
  {| testConnection := testConnection E;
     sensor := sensor E;
     Kalman := Kalman E;
     kalman_new := kalman_new E;
     kalman_setAngle := kalman_setAngle E;
     kalman_getAngle := kalman_getAngle E;
     PID := PID E;
     pid_initial := pid_initial E;
     pid_update := pid_update E;
     pid_setup_menu := pid_setup_menu E;
     serial_available := serial_available E;
     Ticker := unit;
     ticker_new := tt;
     ticker_start := fun t _ => t;
     ticker_stop := fun t => t;
     ticker_update := fun t _ => (false, t);
     atan2 := atan2 E;
     cost := cost E |}.

End Bench.

(** * Reference functions

    Closed forms of what the sketch computes, against which its runs are
    described. *)

(** ** The sampling loop *)

Inductive axis : Type := AX | AY | AZ | GX | GY | GZ.

Definition get (a : axis) (s : Sample) : Z :=
  match a with
  | AX => s_ax s | AY => s_ay s | AZ => s_az s
  | GX => s_gx s | GY => s_gy s | GZ => s_gz s
  end.

Definition add_sample (sums s : Sample) : Sample :=
  MkSample (int32 (s_ax sums + s_ax s)) (int32 (s_ay sums + s_ay s))
           (int32 (s_az sums + s_az s)) (int32 (s_gx sums + s_gx s))
           (int32 (s_gy sums + s_gy s)) (int32 (s_gz sums + s_gz s)).

(** The accumulators after [n] passes that start at reading [k]. *)
Fixpoint accumulate (readings : nat -> Sample) (k n : nat) (sums : Sample) : Sample :=
  match n with
  | O => sums
  | S n' => accumulate readings (S k) n' (add_sample sums (readings k))
  end.

(** The exact sum of one axis over readings [k .. k+n-1]. *)
Definition axis_total (a : axis) (readings : nat -> Sample) (k n : nat) : Z :=
  fold_right Z.add 0 (map (fun i => get a (readings i)) (seq k n)).

Definition is_led (e : event) : bool :=
  match e with EvDigitalWrite _ => true | _ => false end.

Definition not_led (e : event) : bool := negb (is_led e).

(** The sensor reads and pauses of [n] passes that start at reading [k]. *)
Definition sampling (readings : nat -> Sample) (k n : nat) : list event :=
  flat_map (fun i => [EvGetMotion6 (readings i); EvDelay 5]) (seq k n).

(** The six right shifts by nine that end [calibrate]'s sampling. *)
Definition mean512 (sums : Sample) : Sample :=
  MkSample (Z.shiftr (s_ax sums) 9) (Z.shiftr (s_ay sums) 9) (Z.shiftr (s_az sums) 9)
           (Z.shiftr (s_gx sums) 9) (Z.shiftr (s_gy sums) 9) (Z.shiftr (s_gz sums) 9).

(** The offsets and the start-position flag [calibrate] leaves behind
    when the accumulators hold [sums]. *)
Definition finish_calibration (sums : Sample) : Sample * bool :=
  let off := mean512 sums in
  if 0 <? s_ax off
  then (with_ax (int32 (s_ax off - 16384)) off, true)
  else (with_ax (int32 (s_ax off + 16384)) off, false).

(** The result of calibrating on readings [k .. k+511]. *)
Abbreviation calibration readings k :=
  (finish_calibration (accumulate readings k 512 zero_sample)).

(** The fused angle is a number whose magnitude is below 30 degrees. *)
Definition within_range (angle : float) : Prop :=
  is_number angle = true /\ (Qabs (F2Q angle) < 30)%Q.

Definition is_motor (e : event) : bool :=
  match e with EvRunMotors _ | EvStopMotors => true | _ => false end.

(** The calls of the fusion estimator in a log, and the call one pass
    through [loop] makes. *)
Definition is_filter_call (e : event) : bool :=
  match e with EvKalmanGetAngle _ _ _ => true | _ => false end.

Definition filter_call (c : Cycle) : event :=
  EvKalmanGetAngle (c_accAngle c) (c_gyroYRate c) (c_dt_sec c).

(** The angle [setup] hands to the filter. *)
Definition seed_angle (up : bool) : float :=
  if up then literal 90 1 else fneg (literal 90 1).

(** What [readSensor] leaves in [ax .. gz]. *)
Definition corrected (raw off : Sample) : Sample :=
  MkSample (int16 (int32 (s_ax raw - s_ax off))) (int16 (int32 (s_ay raw - s_ay off)))
           (int16 (int32 (s_az raw - s_az off))) (int16 (int32 (s_gx raw - s_gx off)))
           (int16 (int32 (s_gy raw - s_gy off))) (int16 (int32 (s_gz raw - s_gz off))).

(** The unit conversions at the head of [loop]. *)
Definition dt_seconds (dt_usec : Z) : float := fdiv (of_int dt_usec) (literal 1000000 1).
Definition gyro_rate (g : Z) : float := fdiv (of_int g) (literal 131072 1000).
Definition acceleration (a : Z) : float :=
  fdiv (fmul (of_int a) (literal 981 100)) (literal 16384 1).

Definition motor_event (c : motor_cmd) : event :=
  match c with
  | RunMotors pidOutput => EvRunMotors pidOutput
  | StopMotors => EvStopMotors
  end.

(** The command one pass through [loop] sends to the motors. *)
Definition motor_decision (c : Cycle) : event :=
  motor_event (motor_gate (c_kalmanAngle c) (c_pidOutput c)).

(** The operations of one pass through [loop], in order. *)
Definition cycle_events (c : Cycle) (raw : Sample) : list event :=
  [ EvMicros (c_time c);
    EvGetMotion6 raw;
    EvKalmanGetAngle (c_accAngle c) (c_gyroYRate c) (c_dt_sec c);
    EvUpdatePID (c_kalmanAngle c) (c_dt_sec c);
    motor_decision c;
    EvPrintData (c_accAngle c) (c_kalmanAngle c) (fdiv (c_pidOutput c) (of_int 10));
    EvDelay 15 ].

(** The time one pass takes: its operations and the 15 ms pause. *)
Definition cycle_latency (E : Env) (c : Cycle) (raw : Sample) : Z :=
  fold_right Z.add 0 (map (cost E) (cycle_events c raw)) + 1000 * 15.

Section Relations.

Context {E : Env}.

(** Everything an operation may leave alone while the LED blinks, the
    clock runs and the sensor is read. *)
Definition keeps_control (m m' : Machine E) : Prop :=
  offsets (globals m') = offsets (globals m) /\
  startPositionIsUp (globals m') = startPositionIsUp (globals m) /\
  oldTime (globals m') = oldTime (globals m) /\
  KFilter (globals m') = KFilter (globals m) /\
  pid (world m') = pid (world m).

(** One pass through [loop] takes the machine from [m] to [m'] with
    locals [c]. *)
Record cycle_from (m : Machine E) (c : Cycle) (m' : Machine E) : Prop := {
  cy_time : c_time c = uint32 (clock (world m));
  cy_dt_usec : c_dt_usec c = uint32 (c_time c - oldTime (globals m));
  cy_dt_sec : c_dt_sec c = dt_seconds (c_dt_usec c);
  cy_cur : cur (globals m') =
           corrected (sensor E (reads (world m))) (offsets (globals m));
  cy_gyro : c_gyroYRate c = gyro_rate (s_gy (cur (globals m')));
  cy_accX : c_accX c = acceleration (s_ax (cur (globals m')));
  cy_accZ : c_accZ c = acceleration (s_az (cur (globals m')));
  cy_accAngle : c_accAngle c = getAccAngle E (c_accX c) (c_accZ c);
  cy_kalman : kalman_getAngle E (KFilter (globals m))
                (c_accAngle c) (c_gyroYRate c) (c_dt_sec c)
              = (c_kalmanAngle c, KFilter (globals m'));
  cy_pid : pid_update E (pid (world m)) (c_kalmanAngle c) (c_dt_sec c)
           = (c_pidOutput c, pid (world m'));
  cy_oldTime : oldTime (globals m') = c_time c;
  cy_offsets : offsets (globals m') = offsets (globals m);
  cy_flag : startPositionIsUp (globals m') = startPositionIsUp (globals m);
  cy_reads : reads (world m') = S (reads (world m));
  cy_trace : trace (world m') =
             trace (world m) ++ cycle_events c (sensor E (reads (world m)));
  cy_clock : clock (world m') =
             clock (world m) + cycle_latency E c (sensor E (reads (world m)))
}.

(** [n] passes through [loop], one after the other. *)
Inductive cycles_from : Machine E -> list Cycle -> Machine E -> Prop :=
| cycles_nil m : cycles_from m [] m
| cycles_cons m c m1 cs m2 :
    cycle_from m c m1 -> cycles_from m1 cs m2 -> cycles_from m (c :: cs) m2.

End Relations.

(** * Further reference functions *)

(** [j] LED writes that alternate, the first at level [b]. *)
Fixpoint alternating (b : bool) (j : nat) : list event :=
  match j with
  | O => []
  | S j' => EvDigitalWrite b :: alternating (negb b) j'
  end.

(** The time the operations of a log take. *)
Definition total_cost (E : Env) (evs : list event) : Z :=
  fold_right Z.add 0 (map (cost E) evs).


(** The sensor reads and the pauses in a log. *)
Definition is_sampling (e : event) : bool :=
  match e with EvGetMotion6 _ | EvDelay _ => true | _ => false end.

(** The elapsed microseconds measured by a run of passes, added up. *)
Definition measured_time (cs : list Cycle) : Z :=
  fold_right Z.add 0 (map c_dt_usec cs).

(** The bench at rest, a tenth of a millisecond before the microsecond
    counter wraps. *)
Definition near_wrap : Machine Bench.still :=
  MkMachine (globals (power_on Bench.still))
            (MkWorld (E := Bench.still) 4294967196 0%nat tt []).


(** The magnitude of a number in units of [2^-200]. *)
Definition scaled (x : float) : Z :=
  match x with
  | S754_finite _ m e => Zpos m * 2 ^ (e + 200)
  | _ => 0
  end.


(** * Properties *)

(** ** Machine integers *)

Lemma int16_range z : in_int16 (int16 z).
Proof.
  unfold in_int16, int16, wrap_signed.
  change (2 ^ (16 - 1)) with 32768. change (2 ^ 16) with 65536.
  pose proof (Z.mod_pos_bound (z + 32768) 65536). lia.
Qed.

Lemma int32_range z : in_int32 (int32 z).
Proof.
  unfold in_int32, int32, wrap_signed.
  change (2 ^ (32 - 1)) with 2147483648. change (2 ^ 32) with 4294967296.
  pose proof (Z.mod_pos_bound (z + 2147483648) 4294967296). lia.
Qed.

Lemma int16_id z : in_int16 z -> int16 z = z.
Proof.
  unfold in_int16, int16, wrap_signed. intros H.
  change (2 ^ (16 - 1)) with 32768. change (2 ^ 16) with 65536.
  rewrite Z.mod_small by lia. lia.
Qed.

Lemma int32_id z : in_int32 z -> int32 z = z.
Proof.
  unfold in_int32, int32, wrap_signed. intros H.
  change (2 ^ (32 - 1)) with 2147483648. change (2 ^ 32) with 4294967296.
  rewrite Z.mod_small by lia. lia.
Qed.

(** Narrowing a 32-bit result to 16 bits forgets the 32-bit reduction. *)
Lemma int16_int32 z : int16 (int32 z) = int16 z.
Proof.
  unfold int16, int32, wrap_signed.
  change (2 ^ (16 - 1)) with 32768. change (2 ^ 16) with 65536.
  change (2 ^ (32 - 1)) with 2147483648. change (2 ^ 32) with 4294967296.
  f_equal.
  pose proof (Z.div_mod (z + 2147483648) 4294967296 ltac:(lia)) as E.
  set (q := (z + 2147483648) / 4294967296) in *.
  set (r := (z + 2147483648) mod 4294967296) in *.
  replace (r - 2147483648 + 32768) with (z + 32768 + (- q * 65536) * 65536) by lia.
  apply Z.mod_add. lia.
Qed.

(** The reduction only ever moves a value by a multiple of [2^16]. *)
Lemma int16_congr z : exists k, int16 z = z + k * 65536.
Proof.
  unfold int16, wrap_signed.
  change (2 ^ (16 - 1)) with 32768. change (2 ^ 16) with 65536.
  exists (- ((z + 32768) / 65536)).
  pose proof (Z.div_mod (z + 32768) 65536 ltac:(lia)). lia.
Qed.

(** ** Binary32 comparisons against the rational value *)

Lemma digits2_size m : digits2_pos m = Pos.size m.
Proof. induction m; simpl; congruence. Qed.

Lemma digits2_upper m : Zpos m < 2 ^ Zpos (digits2_pos m).
Proof.
  rewrite digits2_size. pose proof (Pos.size_gt m) as H.
  apply Pos2Z.pos_lt_pos in H. rewrite Pos2Z.inj_pow in H. exact H.
Qed.

Lemma digits2_lower m : 2 ^ Zpos (digits2_pos m) <= 2 * Zpos m.
Proof.
  rewrite digits2_size. pose proof (Pos.size_le m) as H.
  apply Pos2Z.pos_le_pos in H. rewrite Pos2Z.inj_pow in H. exact H.
Qed.

Lemma valid_finite_inv s m e :
  valid (S754_finite s m e) ->
  -149 <= e <= 104 /\ Zpos m < 2 ^ 24 /\ (-149 < e -> 2 ^ 23 <= Zpos m).
Proof.
  unfold valid, valid_binary, bounded, canonical_mantissa, fexp, SpecFloat.emin, prec, emax.
  intros H. apply andb_true_iff in H. destruct H as [Hc He].
  apply Z.eqb_eq in Hc. apply Z.leb_le in He.
  pose proof (digits2_upper m) as Hu. pose proof (digits2_lower m) as Hl.
  set (d := Zpos (digits2_pos m)) in *.
  assert (Hd : 0 < d) by (subst d; lia).
  assert (d <= 24) by lia.
  split; [lia|]. split.
  - apply Z.lt_le_trans with (1 := Hu). apply Z.pow_le_mono_r; lia.
  - intros He'. assert (d = 24) by lia.
    replace d with 24 in Hl by lia. change (2 ^ 24) with (2 * 2 ^ 23) in Hl. lia.
Qed.

Lemma abs_finite s m e : abs (S754_finite s m e) = S754_finite false m e.
Proof. destruct s; reflexivity. Qed.

Lemma Qabs_F2Q_lt_30 s m e :
  (Qabs (F2Q (S754_finite s m e)) < 30)%Q <->
  match e with
  | Z0 => Zpos m < 30
  | Zpos p => Zpos m * 2 ^ Zpos p < 30
  | Zneg p => Zpos m < 30 * 2 ^ Zpos p
  end.
Proof.
  unfold F2Q, cond_Zopp, Qlt, Qabs.
  destruct e as [|p|p]; destruct s; cbn [Qnum Qden];
    rewrite ?Pos2Z.inj_pow; lia.
Qed.

Lemma flt_thirty m e :
  valid (S754_finite false m e) ->
  flt (S754_finite false m e) (of_int 30) = true <->
  (Qabs (F2Q (S754_finite false m e)) < 30)%Q.
Proof.
  intros Hv. apply valid_finite_inv in Hv. destruct Hv as (He & Hhi & Hlo).
  rewrite Qabs_F2Q_lt_30.
  change (of_int 30) with (S754_finite false 15728640 (-19)).
  unfold flt, SFltb, SFcompare.
  change (2 ^ 24) with 16777216 in Hhi. change (2 ^ 23) with 8388608 in Hlo.
  destruct (Z.compare_spec e (-19)) as [E|E|E].
  - subst e. rewrite Pos.compare_cont_spec. simpl Pos.switch_Eq.
    change (2 ^ 19) with 524288.
    destruct (Pos.compare_spec m 15728640) as [C|C|C]; split; intros; try discriminate; try reflexivity; lia.
  - destruct e as [|p|p]; try lia.
    assert (2 ^ 20 <= 2 ^ Zpos p) by (apply Z.pow_le_mono_r; lia).
    change (2 ^ 20) with 1048576 in *. split; intros; [lia | reflexivity].
  - specialize (Hlo ltac:(lia)).
    split; [discriminate|]. intros H. exfalso. destruct e as [|p|p].
    + lia.
    + assert (1 <= 2 ^ Zpos p) by (change 1 with (2 ^ 0); apply Z.pow_le_mono_r; lia). nia.
    + assert (2 ^ Zpos p <= 2 ^ 18) by (apply Z.pow_le_mono_r; lia).
      change (2 ^ 18) with 262144 in *. lia.
Qed.

(** ** The accumulators of the sampling loop *)

Lemma get_add_sample a sums s :
  get a (add_sample sums s) = int32 (get a sums + get a s).
Proof. destruct a; reflexivity. Qed.

Lemma get_AX s : get AX s = s_ax s.
Proof. reflexivity. Qed.

Lemma get_in_int16 a s : sample_in_int16 s -> in_int16 (get a s).
Proof. unfold sample_in_int16. destruct a; simpl; tauto. Qed.

Lemma axis_total_S a readings k n :
  axis_total a readings k (S n) = get a (readings k) + axis_total a readings (S k) n.
Proof. reflexivity. Qed.

Lemma accumulate_exact a readings :
  (forall i, sample_in_int16 (readings i)) ->
  forall n k sums b,
    0 <= b -> - b <= get a sums <= b ->
    b + 32768 * Z.of_nat n <= 2147483647 ->
    get a (accumulate readings k n sums) = get a sums + axis_total a readings k n
    /\ - (b + 32768 * Z.of_nat n) <= get a (accumulate readings k n sums)
         <= b + 32768 * Z.of_nat n.
Proof.
  intros Hr. induction n as [|n IH]; intros k sums b Hb Hs Hn.
  - simpl. unfold axis_total. simpl. lia.
  - cbn [accumulate]. rewrite axis_total_S.
    pose proof (get_in_int16 a _ (Hr k)) as Hk. unfold in_int16 in Hk.
    assert (Hadd : get a (add_sample sums (readings k)) = get a sums + get a (readings k)).
    { rewrite get_add_sample. apply int32_id. unfold in_int32. lia. }
    destruct (IH (S k) (add_sample sums (readings k)) (b + 32768)) as [IH1 IH2]; lia.
Qed.

Lemma axis_total_steady a s k n :
  axis_total a (fun _ => s) k n = Z.of_nat n * get a s.
Proof.
  revert k. induction n as [|n IH]; intros k.
  - reflexivity.
  - rewrite axis_total_S, IH. lia.
Qed.

Lemma axis_total_const a readings v n : forall k,
  (forall i, (i < n)%nat -> get a (readings (k + i)%nat) = v) ->
  axis_total a readings k n = Z.of_nat n * v.
Proof.
  induction n as [|n IH]; intros k H.
  - reflexivity.
  - rewrite axis_total_S, IH.
    + rewrite <- (H 0%nat) by lia. rewrite Nat.add_0_r. lia.
    + intros i Hi. rewrite <- (H (S i)) by lia. f_equal. f_equal. lia.
Qed.

(** The accumulators depend on the readings taken and on nothing else. *)
Lemma accumulate_ext r1 r2 n : forall k1 k2 sums,
  (forall i, (i < n)%nat -> r1 (k1 + i)%nat = r2 (k2 + i)%nat) ->
  accumulate r1 k1 n sums = accumulate r2 k2 n sums.
Proof.
  induction n as [|n IH]; intros k1 k2 sums H.
  - reflexivity.
  - cbn [accumulate].
    pose proof (H 0%nat ltac:(lia)) as H0. rewrite !Nat.add_0_r in H0. rewrite H0.
    apply IH. intros i Hi. specialize (H (S i) ltac:(lia)).
    rewrite !Nat.add_succ_r in H. exact H.
Qed.

Lemma shiftr_9 z : Z.shiftr z 9 = z / 512.
Proof. rewrite Z.shiftr_div_pow2 by lia. reflexivity. Qed.

Lemma get_mean512 a sums : get a (mean512 sums) = get a sums / 512.
Proof. destruct a; apply shiftr_9. Qed.

Lemma finish_calibration_other a sums :
  a <> AX -> get a (fst (finish_calibration sums)) = get a sums / 512.
Proof.
  intros Ha. rewrite <- get_mean512. unfold finish_calibration.
  destruct (0 <? s_ax (mean512 sums)); destruct a; try congruence; reflexivity.
Qed.

Lemma finish_calibration_ax sums :
  snd (finish_calibration sums) = (0 <? s_ax sums / 512) /\
  s_ax (fst (finish_calibration sums)) =
    if 0 <? s_ax sums / 512
    then int32 (s_ax sums / 512 - 16384)
    else int32 (s_ax sums / 512 + 16384).
Proof.
  replace (s_ax sums / 512) with (s_ax (mean512 sums)) by apply shiftr_9.
  unfold finish_calibration.
  destruct (0 <? s_ax (mean512 sums)); split; reflexivity.
Qed.

(** With 16-bit readings the 32-bit accumulators never wrap in 512 passes. *)
Lemma accumulate_512 a readings k :
  (forall i, sample_in_int16 (readings i)) ->
  get a (accumulate readings k 512 zero_sample) = axis_total a readings k 512 /\
  -32768 <= axis_total a readings k 512 / 512 <= 32768.
Proof.
  intros Hr.
  destruct (accumulate_exact a readings Hr 512 k zero_sample 0) as [H1 H2];
    try (destruct a; cbn; lia).
  replace (get a zero_sample) with 0 in H1 by (destruct a; reflexivity).
  rewrite H1 in H2. split; [lia|].
  change (0 + 32768 * Z.of_nat 512) with 16777216 in H2.
  split.
  - apply Z.div_le_lower_bound; lia.
  - apply Z.div_le_upper_bound; lia.
Qed.

Lemma accumulate_512_ax readings k :
  (forall i, sample_in_int16 (readings i)) ->
  s_ax (accumulate readings k 512 zero_sample) = axis_total AX readings k 512 /\
  -32768 <= axis_total AX readings k 512 / 512 <= 32768.
Proof.
  intros Hr. rewrite <- get_AX. apply accumulate_512. exact Hr.
Qed.

(** ** Running the sketch *)

(** Normalise a run of primitive operations on an explicit machine. *)
Ltac crunch :=
  cbv [bind ret hang gets modify emit advance now micros millis delay digitalWrite
       getMotion6 runMotors stopMotors initMotors KFilter_setAngle KFilter_getAngle
       updatePID setup_menu blinkLed turnOnLed turnOffLed ledTicker_start ledTicker_stop
       ledTicker_update negb
       globals world cur offsets startPositionIsUp oldTime KFilter ledState ledTicker
       clock reads pid trace
       set_cur set_offsets set_startPositionIsUp set_oldTime set_KFilter set_ledState
       set_ledTicker].

Tactic Notation "crunch" "in" hyp(H) :=
  cbv [bind ret hang gets modify emit advance now micros millis delay digitalWrite
       getMotion6 runMotors stopMotors initMotors KFilter_setAngle KFilter_getAngle
       updatePID setup_menu blinkLed turnOnLed turnOffLed ledTicker_start ledTicker_stop
       ledTicker_update negb
       globals world cur offsets startPositionIsUp oldTime KFilter ledState ledTicker
       clock reads pid trace
       set_cur set_offsets set_startPositionIsUp set_oldTime set_KFilter set_ledState
       set_ledTicker] in H.

Lemma seed_angle_eq (up : bool) :
  (if up then literal 90 1 else fneg (literal 90 1)) = seed_angle up.
Proof. reflexivity. Qed.

Section Runs.

Context {E : Env}.

Lemma keeps_control_refl (m : Machine E) : keeps_control m m.
Proof. repeat split. Qed.

Lemma keeps_control_trans (m1 m2 m3 : Machine E) :
  keeps_control m1 m2 -> keeps_control m2 m3 -> keeps_control m1 m3.
Proof.
  unfold keeps_control. intros (a1 & a2 & a3 & a4 & a5) (b1 & b2 & b3 & b4 & b5).
  repeat split; congruence.
Qed.

Lemma calibrate_body_run sums (m : Machine E) :
  exists m' evs,
    calibrate_body E sums m = Done (add_sample sums (sensor E (reads (world m)))) m' /\
    reads (world m') = S (reads (world m)) /\
    keeps_control m m' /\
    trace (world m') = trace (world m) ++ evs /\
    filter not_led evs = sampling (sensor E) (reads (world m)) 1.
Proof.
  unfold calibrate_body, ledTicker_update, millis, now, getMotion6, delay, blinkLed,
    digitalWrite, emit, advance, gets, modify, bind, ret.
  cbn [globals world reads clock pid trace cur].
  destruct (ticker_update E (ledTicker (globals m)) (uint32 (clock (world m) / 1000)))
    as [[|] tk'];
    cbn [globals world reads clock pid trace cur set_cur set_ledTicker set_ledState];
    eexists; eexists; (split; [reflexivity|]);
    cbn [globals world reads clock pid trace cur offsets startPositionIsUp oldTime KFilter];
    (split; [reflexivity|]); (split; [repeat split|]);
    rewrite <- ?app_assoc; (split; [reflexivity|]); reflexivity.
Qed.

Lemma sampling_S readings k n :
  sampling readings k (S n) =
  [EvGetMotion6 (readings k); EvDelay 5] ++ sampling readings (S k) n.
Proof. reflexivity. Qed.

Lemma for_loop_calibrate_run n : forall sums (m : Machine E),
  exists m' evs,
    for_loop E n (calibrate_body E) sums m
      = Done (accumulate (sensor E) (reads (world m)) n sums) m' /\
    reads (world m') = (reads (world m) + n)%nat /\
    keeps_control m m' /\
    trace (world m') = trace (world m) ++ evs /\
    filter not_led evs = sampling (sensor E) (reads (world m)) n.
Proof.
  induction n as [|n IH]; intros sums m.
  - exists m, []. cbn [for_loop accumulate]. unfold ret.
    repeat split; auto using app_nil_r.
  - destruct (calibrate_body_run sums m) as (m1 & evs1 & R1 & N1 & K1 & T1 & F1).
    destruct (IH (add_sample sums (sensor E (reads (world m)))) m1)
      as (m2 & evs2 & R2 & N2 & K2 & T2 & F2).
    exists m2, (evs1 ++ evs2).
    cbn [for_loop accumulate]. unfold bind at 1. rewrite R1, R2, N1 in *.
    split; [reflexivity|]. split; [lia|]. split; [eapply keeps_control_trans; eauto|].
    split; [rewrite T2, T1, app_assoc; reflexivity|].
    rewrite filter_app, F1, F2, sampling_S. reflexivity.
Qed.

Lemma calibrate_run (m : Machine E) :
  exists m' evs,
    calibrate E m = Done tt m' /\
    offsets (globals m') = fst (calibration (sensor E) (reads (world m))) /\
    startPositionIsUp (globals m') = snd (calibration (sensor E) (reads (world m))) /\
    reads (world m') = (reads (world m) + 512)%nat /\
    oldTime (globals m') = oldTime (globals m) /\
    KFilter (globals m') = KFilter (globals m) /\
    pid (world m') = pid (world m) /\
    trace (world m') = trace (world m) ++ evs /\
    filter not_led evs = sampling (sensor E) (reads (world m)) 512.
Proof.
  destruct (for_loop_calibrate_run 512 zero_sample m)
    as (m1 & evs & R & N & (K1 & K2 & K3 & K4 & K5) & T & F).
  unfold calibrate, bind at 1. rewrite R.
  unfold finish_calibration.
  set (sums := accumulate (sensor E) (reads (world m)) 512 zero_sample).
  unfold bind, modify, gets.
  cbn [globals world offsets set_offsets].
  change (MkSample (Z.shiftr (s_ax sums) 9) (Z.shiftr (s_ay sums) 9) (Z.shiftr (s_az sums) 9)
         (Z.shiftr (s_gx sums) 9) (Z.shiftr (s_gy sums) 9) (Z.shiftr (s_gz sums) 9))
    with (mean512 sums).
  destruct (0 <? s_ax (mean512 sums));
    cbn [globals world offsets set_offsets set_startPositionIsUp startPositionIsUp
           oldTime KFilter fst snd];
    eexists; exists evs; repeat split; eauto.
Qed.
Lemma setup_run (m : Machine E) :
  testConnection E = true ->
  exists m' cal t,
    setup E m = Done tt m' /\
    offsets (globals m') = fst (calibration (sensor E) (reads (world m))) /\
    startPositionIsUp (globals m') = snd (calibration (sensor E) (reads (world m))) /\
    reads (world m') = (reads (world m) + 512)%nat /\
    KFilter (globals m') =
      kalman_setAngle E (kalman_new E)
        (seed_angle (snd (calibration (sensor E) (reads (world m))))) /\
    oldTime (globals m') = t /\
    filter not_led cal = sampling (sensor E) (reads (world m)) 512 /\
    trace (world m') =
      trace (world m)
      ++ [EvInitMotors; EvSensorInitialize; EvTestConnection true; EvDelay 3000]
      ++ cal
      ++ [EvDigitalWrite false;
          EvKalmanSetAngle (seed_angle (snd (calibration (sensor E) (reads (world m)))));
          EvDelay 3000]
      ++ (if serial_available E then [EvSetupMenu] else [])
      ++ [EvMicros t; EvDigitalWrite true].
Proof.
  intros Hc. unfold setup. rewrite Hc.
  destruct m as [[c0 o0 f0 t0 k0 l0 tk0] [ck0 rd0 pd0 tr0]].
  crunch.
  match goal with |- context [calibrate E ?m1] =>
    destruct (calibrate_run m1) as (m2 & cal & R & O & F & N & T0 & K & P & T & S)
  end.
  rewrite R. clear R.
  destruct m2 as [[c2 o2 f2 t2 k2 l2 tk2] [ck2 rd2 pd2 tr2]].
  crunch. crunch in O. crunch in F. crunch in N. crunch in T. crunch in S. crunch in P.
  subst o2 f2 rd2 tr2 pd2.
  rewrite seed_angle_eq.
  destruct (serial_available E); crunch.
  - eexists; exists cal; eexists.
    (split; [reflexivity|]).
    crunch.
    repeat (split; [reflexivity|]). (split; [exact S|]).
    repeat (rewrite <- app_assoc; cbn [app]). reflexivity.
  - eexists; exists cal; eexists.
    (split; [reflexivity|]); crunch;
    repeat (split; [reflexivity|]); (split; [exact S|]);
    repeat (rewrite <- app_assoc; cbn [app]); reflexivity.
Qed.
Lemma loop_run (m : Machine E) : exists c m', loop E m = Done c m' /\ cycle_from m c m'.
Proof.
  destruct m as [[c0 o0 f0 t0 k0 l0 tk0] [ck0 rd0 pd0 tr0]].
  unfold loop, readSensor. crunch.
  destruct (kalman_getAngle E k0 _ _ _) as [angle k1] eqn:HK.
  destruct (pid_update E pd0 angle _) as [out p1] eqn:HP.
  destruct (flt (abs angle) (of_int 30)) eqn:HG; crunch;
    eexists; eexists; (split; [reflexivity|]);
    (constructor; crunch;
     unfold cycle_latency, cycle_events, motor_decision, motor_gate;
     cbn [c_time c_dt_usec c_dt_sec c_gyroYRate c_accX c_accZ
            c_accAngle c_kalmanAngle c_pidOutput map fold_right];
     rewrite ?HG; cbn [motor_event];
     try reflexivity; try assumption;
     [ repeat (rewrite <- app_assoc; cbn [app]); reflexivity | lia ]).
Qed.

Lemma loops_run n : forall m : Machine E,
  exists cs m', loops E n m = Done cs m' /\ length cs = n /\ cycles_from m cs m'.
Proof.
  induction n as [|n IH]; intros m.
  - exists [], m. repeat split. constructor.
  - destruct (loop_run m) as (c & m1 & R1 & C1).
    destruct (IH m1) as (cs & m2 & R2 & L2 & C2).
    exists (c :: cs), m2. cbn [loops]. unfold bind at 1. rewrite R1.
    unfold bind at 1. rewrite R2. unfold ret.
    repeat split; [cbn; congruence | econstructor; eauto].
Qed.

Lemma cycles_offsets (m : Machine E) cs m' :
  cycles_from m cs m' ->
  offsets (globals m') = offsets (globals m) /\
  startPositionIsUp (globals m') = startPositionIsUp (globals m) /\
  reads (world m') = (reads (world m) + length cs)%nat.
Proof.
  induction 1 as [m | m c m1 cs m2 H1 H2 IH].
  - cbn. repeat split. lia.
  - destruct IH as (I1 & I2 & I3). destruct H1.
    cbn [length]. repeat split; try congruence. lia.
Qed.
End Runs.

(** ** The actuation gate *)

Lemma motor_gate_cases angle cmd :
  motor_gate angle cmd = RunMotors cmd /\ flt (abs angle) (of_int 30) = true \/
  motor_gate angle cmd = StopMotors /\ flt (abs angle) (of_int 30) = false.
Proof.
  unfold motor_gate. destruct (flt (abs angle) (of_int 30)); auto.
Qed.

Lemma gate_test_iff angle :
  valid angle -> flt (abs angle) (of_int 30) = true <-> within_range angle.
Proof.
  intros Hv. unfold within_range. destruct angle as [s | s | | s m e].
  - destruct s; split; intros _; repeat split; reflexivity.
  - destruct s; split; [discriminate | intros [H _]; discriminate
                       | discriminate | intros [H _]; discriminate].
  - split; [discriminate | intros [H _]; discriminate].
  - rewrite abs_finite.
    assert (Hv' : valid (S754_finite false m e)) by exact Hv.
    rewrite (flt_thirty m e Hv').
    rewrite (Qabs_F2Q_lt_30 false), (Qabs_F2Q_lt_30 s). cbn [is_number]. tauto.
Qed.

Lemma motor_gate_spec angle cmd :
  valid angle ->
  (motor_gate angle cmd = RunMotors cmd <-> within_range angle) /\
  (motor_gate angle cmd = StopMotors <-> ~ within_range angle).
Proof.
  intros Hv. pose proof (gate_test_iff angle Hv) as Ht.
  destruct (motor_gate_cases angle cmd) as [[Hg Hf] | [Hg Hf]]; rewrite Hg;
    split; split; intros H; try reflexivity; try discriminate; try tauto.
  - apply Ht in H. congruence.
  - intros Hw. apply Ht in Hw. congruence.
Qed.

(** * The claims of the design document *)



(** C2, as stated, fails: the offset is the sum shifted right by nine
    bits, which rounds down, so it is the arithmetic mean only when 512
    divides the sum.  With one reading of -1 among 511 readings of 0 the
    sum is -1, the arithmetic mean is -1/512, an integer division that
    truncates gives 0, and the offset [calibrate] computes is -1. *)
Lemma mean_is_rounded_down :
  (forall i, sample_in_int16 (sensor Bench.jolt i)) /\
  is_done (calibrate Bench.jolt (power_on Bench.jolt)) = true /\
  axis_total AY (sensor Bench.jolt) (reads (world (power_on Bench.jolt))) 512 = -1 /\
  s_ay (offsets (globals (state_of (calibrate Bench.jolt (power_on Bench.jolt))))) = -1 /\
  ~ (inject_Z (s_ay (offsets (globals (state_of (calibrate Bench.jolt (power_on Bench.jolt))))))
     == axis_total AY (sensor Bench.jolt) (reads (world (power_on Bench.jolt))) 512 # 512)%Q /\
  s_ay (offsets (globals (state_of (calibrate Bench.jolt (power_on Bench.jolt)))))
  <> Z.quot (axis_total AY (sensor Bench.jolt) (reads (world (power_on Bench.jolt))) 512) 512.
Proof.
  assert (T : axis_total AY (sensor Bench.jolt) (reads (world (power_on Bench.jolt))) 512 = -1)
    by (vm_compute; reflexivity).
  assert (O : s_ay (offsets (globals (state_of (calibrate Bench.jolt (power_on Bench.jolt)))))
              = -1) by (vm_compute; reflexivity).
  split.
  { intros i. unfold sample_in_int16, in_int16. cbn. destruct (i =? 0)%nat; cbn; lia. }
  split; [vm_compute; reflexivity|]. split; [exact T|]. split; [exact O|].
  rewrite T, O. split.
  - unfold Qeq. cbn. discriminate.
  - cbn. discriminate.
Qed.

(** C2, amended.  [calibrate] reads the sensor exactly 512 times, pausing
    5 ms after each read, and sums each of the six axes over those
    readings.  The offset of each of the five axes other than the gravity
    axis is the sum shifted right by nine bits, that is the sum divided by
    512 and rounded down: 512 times the offset is at most the sum and less
    than 512 below it, and it is the arithmetic mean itself exactly when
    512 divides the sum.  The gravity-axis offset is the same rounded-down
    mean moved by the full-scale constant, down by 16384 when the start
    position is up and up by 16384 when it is down.  An axis other than
    the gravity axis whose 512 readings all equal [v] gets the offset [v]
    exactly. *)
Theorem calibrate_averages_512_samples :
  forall (E : Env) (m : Machine E),
    (forall i, sample_in_int16 (sensor E i)) ->
    exists m' evs,
      calibrate E m = Done tt m' /\
      reads (world m') = (reads (world m) + 512)%nat /\
      trace (world m') = trace (world m) ++ evs /\
      filter not_led evs = sampling (sensor E) (reads (world m)) 512 /\
      (forall a, a <> AX ->
         get a (offsets (globals m'))
         = axis_total a (sensor E) (reads (world m)) 512 / 512 /\
         512 * get a (offsets (globals m'))
         <= axis_total a (sensor E) (reads (world m)) 512
         < 512 * get a (offsets (globals m')) + 512 /\
         ((inject_Z (get a (offsets (globals m')))
           == axis_total a (sensor E) (reads (world m)) 512 # 512)%Q
          <-> axis_total a (sensor E) (reads (world m)) 512 mod 512 = 0)) /\
      s_ax (offsets (globals m'))
      = axis_total AX (sensor E) (reads (world m)) 512 / 512
        + (if startPositionIsUp (globals m') then -16384 else 16384) /\
      (forall a v, a <> AX ->
         (forall i, (i < 512)%nat -> get a (sensor E (reads (world m) + i)%nat) = v) ->
         get a (offsets (globals m')) = v).
Proof.
  intros E m Hr.
  destruct (calibrate_run m) as (m' & evs & R & O & F & N & _ & _ & _ & T & S).
  assert (Hother : forall a, a <> AX ->
            get a (offsets (globals m'))
            = axis_total a (sensor E) (reads (world m)) 512 / 512).
  { intros a Ha. rewrite O, (finish_calibration_other a _ Ha).
    destruct (accumulate_512 a (sensor E) (reads (world m)) Hr) as [H _].
    rewrite H. reflexivity. }
  exists m', evs. repeat (split; [assumption|]).
  split.
  { intros a Ha. rewrite (Hother a Ha).
    pose proof (Z.div_mod (axis_total a (sensor E) (reads (world m)) 512) 512 ltac:(lia)).
    pose proof (Z.mod_pos_bound (axis_total a (sensor E) (reads (world m)) 512) 512
                  ltac:(lia)).
    split; [reflexivity|]. split; [lia|].
    unfold Qeq. cbn [Qnum Qden inject_Z]. lia. }
  split.
  - rewrite F, O.
    destruct (finish_calibration_ax (accumulate (sensor E) (reads (world m)) 512 zero_sample))
      as [Hf Hx].
    rewrite Hx, Hf.
    destruct (accumulate_512_ax (sensor E) (reads (world m)) Hr) as [H B].
    rewrite H.
    destruct (0 <? axis_total AX (sensor E) (reads (world m)) 512 / 512);
      apply int32_id; unfold in_int32; lia.
  - intros a v Ha Hv. rewrite (Hother a Ha), (axis_total_const a _ v 512 _ Hv).
    change (Z.of_nat 512) with 512. rewrite Z.mul_comm. apply Z.div_mul. lia.
Qed.

Lemma calibrate_averages_512_samples_witness :
  exists m' evs,
    calibrate Bench.jolt (power_on Bench.jolt) = Done tt m' /\
    reads (world m') = (reads (world (power_on Bench.jolt)) + 512)%nat /\
    trace (world m') = trace (world (power_on Bench.jolt)) ++ evs /\
    filter not_led evs
    = sampling (sensor Bench.jolt) (reads (world (power_on Bench.jolt))) 512 /\
    (forall a, a <> AX ->
       get a (offsets (globals m'))
       = axis_total a (sensor Bench.jolt) (reads (world (power_on Bench.jolt))) 512 / 512 /\
       512 * get a (offsets (globals m'))
       <= axis_total a (sensor Bench.jolt) (reads (world (power_on Bench.jolt))) 512
       < 512 * get a (offsets (globals m')) + 512 /\
       ((inject_Z (get a (offsets (globals m')))
         == axis_total a (sensor Bench.jolt) (reads (world (power_on Bench.jolt))) 512 # 512)%Q
        <-> axis_total a (sensor Bench.jolt) (reads (world (power_on Bench.jolt))) 512
            mod 512 = 0)) /\
    s_ax (offsets (globals m'))
    = axis_total AX (sensor Bench.jolt) (reads (world (power_on Bench.jolt))) 512 / 512
      + (if startPositionIsUp (globals m') then -16384 else 16384) /\
    (forall a v, a <> AX ->
       (forall i, (i < 512)%nat ->
          get a (sensor Bench.jolt (reads (world (power_on Bench.jolt)) + i)%nat) = v) ->
       get a (offsets (globals m')) = v).
Proof.
  apply (calibrate_averages_512_samples Bench.jolt (power_on Bench.jolt)).
  intros i. unfold sample_in_int16, in_int16. cbn. destruct (i =? 0)%nat; cbn; lia.
Defined.

(** C3, as stated, fails: [calibrate] tests the mean after it has been
    rounded down to an integer, so a gravity-axis mean between 0 and 1 is
    positive and still resolves to down.  With 511 readings of 1 and one
    of 0 the mean is 511/512, the start position is down and the offset is
    16384. *)
Lemma positive_mean_resolves_to_down :
  (forall i, sample_in_int16 (sensor Bench.leaning i)) /\
  is_done (calibrate Bench.leaning (power_on Bench.leaning)) = true /\
  axis_total AX (sensor Bench.leaning) (reads (world (power_on Bench.leaning))) 512 = 511 /\
  (0 < axis_total AX (sensor Bench.leaning) (reads (world (power_on Bench.leaning))) 512
       # 512)%Q /\
  startPositionIsUp
    (globals (state_of (calibrate Bench.leaning (power_on Bench.leaning)))) = false /\
  s_ax (offsets (globals (state_of (calibrate Bench.leaning (power_on Bench.leaning)))))
  = 16384.
Proof.
  assert (T : axis_total AX (sensor Bench.leaning)
                (reads (world (power_on Bench.leaning))) 512 = 511)
    by (vm_compute; reflexivity).
  split.
  { intros i.
    change (sensor Bench.leaning i)
      with (if (i <? 511)%nat then MkSample 1 0 0 0 0 0 else zero_sample).
    unfold sample_in_int16, in_int16. destruct (i <? 511)%nat; cbn; lia. }
  split; [vm_compute; reflexivity|]. split; [exact T|].
  split; [rewrite T; reflexivity|].
  split; vm_compute; reflexivity.
Qed.

(** C3, amended.  After [calibrate] the start-position flag is up exactly
    when the gravity-axis sum of the 512 readings is at least 512, that is
    when their mean rounded down to an integer (the sum shifted right by
    nine bits) is strictly greater than 0, and down otherwise: a mean of
    exactly 0 resolves to down, and so does every mean below 1.  When up
    the gravity-axis offset is the rounded-down mean minus 16384, when
    down it is the rounded-down mean plus 16384. *)
Theorem calibrate_orientation_flag :
  forall (E : Env) (m : Machine E),
    (forall i, sample_in_int16 (sensor E i)) ->
    exists m',
      calibrate E m = Done tt m' /\
      let mean := axis_total AX (sensor E) (reads (world m)) 512 / 512 in
      (startPositionIsUp (globals m') = true <-> mean > 0) /\
      (startPositionIsUp (globals m') = false <-> mean <= 0) /\
      (startPositionIsUp (globals m') = true
       <-> (1 <= axis_total AX (sensor E) (reads (world m)) 512 # 512)%Q) /\
      (startPositionIsUp (globals m') = false
       <-> (axis_total AX (sensor E) (reads (world m)) 512 # 512 < 1)%Q) /\
      (startPositionIsUp (globals m') = true ->
         s_ax (offsets (globals m')) = mean - 16384) /\
      (startPositionIsUp (globals m') = false ->
         s_ax (offsets (globals m')) = mean + 16384).
Proof.
  intros E m Hr.
  destruct (calibrate_run m) as (m' & evs & R & O & F & _).
  destruct (finish_calibration_ax (accumulate (sensor E) (reads (world m)) 512 zero_sample))
    as [Hf Hx].
  destruct (accumulate_512_ax (sensor E) (reads (world m)) Hr) as [H B].
  rewrite H in Hf, Hx.
  exists m'. split; [exact R|]. cbv zeta.
  rewrite F, O, Hf, Hx.
  unfold Qle, Qlt. cbn [Qnum Qden].
  pose proof (Z.div_mod (axis_total AX (sensor E) (reads (world m)) 512) 512 ltac:(lia)).
  pose proof (Z.mod_pos_bound (axis_total AX (sensor E) (reads (world m)) 512) 512
                ltac:(lia)).
  destruct (Z.ltb_spec 0 (axis_total AX (sensor E) (reads (world m)) 512 / 512)) as [L|L].
  - repeat split; intros; try discriminate; try lia;
      apply int32_id; unfold in_int32; lia.
  - repeat split; intros; try discriminate; try lia;
      apply int32_id; unfold in_int32; lia.
Qed.

Lemma calibrate_orientation_flag_witness :
  exists m',
    calibrate Bench.leaning (power_on Bench.leaning) = Done tt m' /\
    let mean :=
      axis_total AX (sensor Bench.leaning)
        (reads (world (power_on Bench.leaning))) 512 / 512 in
    (startPositionIsUp (globals m') = true <-> mean > 0) /\
    (startPositionIsUp (globals m') = false <-> mean <= 0) /\
    (startPositionIsUp (globals m') = true
     <-> (1 <= axis_total AX (sensor Bench.leaning)
                 (reads (world (power_on Bench.leaning))) 512 # 512)%Q) /\
    (startPositionIsUp (globals m') = false
     <-> (axis_total AX (sensor Bench.leaning)
            (reads (world (power_on Bench.leaning))) 512 # 512 < 1)%Q) /\
    (startPositionIsUp (globals m') = true ->
       s_ax (offsets (globals m')) = mean - 16384) /\
    (startPositionIsUp (globals m') = false ->
       s_ax (offsets (globals m')) = mean + 16384).
Proof.
  apply (calibrate_orientation_flag Bench.leaning (power_on Bench.leaning)).
  intros i.
  change (sensor Bench.leaning i)
    with (if (i <? 511)%nat then MkSample 1 0 0 0 0 0 else zero_sample).
  unfold sample_in_int16, in_int16. destruct (i <? 511)%nat; cbn; lia.
Defined.

(** ** The face-down scenario *)

Lemma accumulate_face_down :
  accumulate (Bench.steady (MkSample (-16200) 0 0 0 0 0)) 0 512 zero_sample
  = MkSample (-8294400) 0 0 0 0 0.
Proof. vm_compute. reflexivity. Qed.

Lemma finish_face_down :
  finish_calibration (MkSample (-8294400) 0 0 0 0 0) = (MkSample 184 0 0 0 0 0, false).
Proof. vm_compute. reflexivity. Qed.

Lemma calibration_face_down readings k :
  (forall i, (i < 512)%nat -> readings (k + i)%nat = MkSample (-16200) 0 0 0 0 0) ->
  calibration readings k = (MkSample 184 0 0 0 0 0, false).
Proof.
  intros H.
  rewrite (accumulate_ext readings (Bench.steady (MkSample (-16200) 0 0 0 0 0))
             512 k 0 zero_sample) by (intros i Hi; rewrite (H i Hi); reflexivity).
  rewrite accumulate_face_down. apply finish_face_down.
Qed.

(** C4, as stated, fails: 512 readings of -16200 on the gravity axis give
    the gravity-axis offset 184, not 200. *)
Lemma face_down_offset_is_not_200 :
  is_done (calibrate Bench.face_down (power_on Bench.face_down)) = true /\
  s_ax (offsets (globals (state_of (calibrate Bench.face_down (power_on Bench.face_down)))))
  = 184 /\
  s_ax (offsets (globals (state_of (calibrate Bench.face_down (power_on Bench.face_down)))))
  <> 200 /\
  s_ax (offsets (globals (state_of (setup Bench.face_down (power_on Bench.face_down)))))
  = 184.
Proof.
  assert (H : s_ax (offsets (globals
                (state_of (calibrate Bench.face_down (power_on Bench.face_down))))) = 184)
    by (vm_compute; reflexivity).
  split; [vm_compute; reflexivity|]. split; [exact H|].
  split; [rewrite H; discriminate|]. vm_compute; reflexivity.
Qed.

(** C4, amended.  When each of the 512 calibration readings has -16200 on
    the gravity axis and 0 on the other five, [setup] leaves the offsets
    184 (that is, -16200 + 16384), 0, 0, 0, 0, 0 and the start position
    down, and seeds the filter with the angle -90 degrees. *)
Theorem face_down_calibration :
  forall (E : Env) (m : Machine E),
    testConnection E = true ->
    (forall i, (i < 512)%nat ->
       sensor E (reads (world m) + i)%nat = MkSample (-16200) 0 0 0 0 0) ->
    exists m',
      setup E m = Done tt m' /\
      offsets (globals m') = MkSample 184 0 0 0 0 0 /\
      -16200 + 16384 = 184 /\
      startPositionIsUp (globals m') = false /\
      KFilter (globals m') = kalman_setAngle E (kalman_new E) (fneg (literal 90 1)) /\
      In (EvKalmanSetAngle (fneg (literal 90 1))) (trace (world m')) /\
      (F2Q (fneg (literal 90 1)) == -90)%Q.
Proof.
  intros E m Hc Hs.
  destruct (setup_run m Hc) as (m' & cal & t & R & O & F & _ & K & _ & _ & T).
  rewrite (calibration_face_down _ _ Hs) in O, F, K, T.
  cbn [fst snd seed_angle] in O, F, K, T.
  exists m'. repeat (split; [assumption || reflexivity|]).
  split; [|reflexivity].
  rewrite T. rewrite !in_app_iff. right. right. right. left. cbn. auto.
Qed.

Lemma face_down_calibration_witness :
  exists m',
    setup Bench.face_down (power_on Bench.face_down) = Done tt m' /\
    offsets (globals m') = MkSample 184 0 0 0 0 0 /\
    -16200 + 16384 = 184 /\
    startPositionIsUp (globals m') = false /\
    KFilter (globals m')
    = kalman_setAngle Bench.face_down (kalman_new Bench.face_down) (fneg (literal 90 1)) /\
    In (EvKalmanSetAngle (fneg (literal 90 1))) (trace (world m')) /\
    (F2Q (fneg (literal 90 1)) == -90)%Q.
Proof.
  apply (face_down_calibration Bench.face_down (power_on Bench.face_down)).
  - reflexivity.
  - intros i Hi. reflexivity.
Defined.

(** ** Blinking and calibration *)

Lemma blinkLed_run {E : Env} (m : Machine E) :
  exists m',
    blinkLed E m = Done tt m' /\
    globals m' = set_ledState E (negb (ledState (globals m))) (globals m) /\
    reads (world m') = reads (world m) /\
    pid (world m') = pid (world m) /\
    trace (world m') = trace (world m) ++ [EvDigitalWrite (ledState (globals m))].
Proof.
  destruct m as [[c0 o0 f0 t0 k0 l0 tk0] [ck0 rd0 pd0 tr0]].
  unfold blinkLed. crunch. eexists. repeat split.
Qed.

(** C9.  The computed offsets and the start-position flag depend on the
    512 readings alone: two calibration runs that see the same readings
    end with the same six offsets and the same flag, whatever their
    tickers do (fire at every pass, or never), whatever the LED state and
    the clock are.  [blinkLed] itself changes the LED state and nothing
    else among the sketch's variables. *)
Theorem blinking_does_not_affect_calibration :
  forall (E1 E2 : Env) (m1 : Machine E1) (m2 : Machine E2),
    (forall i, (i < 512)%nat ->
       sensor E1 (reads (world m1) + i)%nat = sensor E2 (reads (world m2) + i)%nat) ->
    (exists m1' m2',
       calibrate E1 m1 = Done tt m1' /\
       calibrate E2 m2 = Done tt m2' /\
       offsets (globals m1') = offsets (globals m2') /\
       startPositionIsUp (globals m1') = startPositionIsUp (globals m2')) /\
    (exists b1,
       blinkLed E1 m1 = Done tt b1 /\
       globals b1 = set_ledState E1 (negb (ledState (globals m1))) (globals m1) /\
       reads (world b1) = reads (world m1)).
Proof.
  intros E1 E2 m1 m2 Hs. split.
  - destruct (calibrate_run m1) as (m1' & ev1 & R1 & O1 & F1 & _).
    destruct (calibrate_run m2) as (m2' & ev2 & R2 & O2 & F2 & _).
    exists m1', m2'. split; [exact R1|]. split; [exact R2|].
    rewrite O1, O2, F1, F2.
    rewrite (accumulate_ext (sensor E1) (sensor E2) 512 _ _ zero_sample Hs).
    split; reflexivity.
  - destruct (blinkLed_run m1) as (b1 & R & G & N & _).
    exists b1. repeat split; assumption.
Qed.

Lemma blinking_does_not_affect_calibration_witness :
  (exists m1' m2',
     calibrate Bench.still (state_of (ledTicker_start Bench.still (power_on Bench.still)))
     = Done tt m1' /\
     calibrate (Bench.no_blink Bench.still) (power_on (Bench.no_blink Bench.still))
     = Done tt m2' /\
     offsets (globals m1') = offsets (globals m2') /\
     startPositionIsUp (globals m1') = startPositionIsUp (globals m2')) /\
  (exists b1,
     blinkLed Bench.still (state_of (ledTicker_start Bench.still (power_on Bench.still)))
     = Done tt b1 /\
     globals b1
     = set_ledState Bench.still
         (negb (ledState
                  (globals (state_of (ledTicker_start Bench.still (power_on Bench.still))))))
         (globals (state_of (ledTicker_start Bench.still (power_on Bench.still)))) /\
     reads (world b1)
     = reads (world (state_of (ledTicker_start Bench.still (power_on Bench.still))))).
Proof.
  apply (blinking_does_not_affect_calibration Bench.still (Bench.no_blink Bench.still)
           (state_of (ledTicker_start Bench.still (power_on Bench.still)))
           (power_on (Bench.no_blink Bench.still))).
  intros i Hi. reflexivity.
Defined.

(** ** Timing *)

Lemma uint32_sub a b : uint32 (uint32 a - uint32 b) = uint32 (a - b).
Proof.
  unfold uint32, wrap_unsigned.
  rewrite Zminus_mod_idemp_l, Zminus_mod_idemp_r. reflexivity.
Qed.

(** C6.  At the end of a pass through [loop] the previous-timestamp
    variable holds the clock value that pass read at its start, so the
    elapsed time the next pass measures is the whole duration of this
    pass, its own processing and its 15 ms pause included. *)
Theorem old_time_is_cycle_start :
  forall (E : Env) (m : Machine E),
    exists c1 m1 c2 m2,
      loop E m = Done c1 m1 /\
      loop E m1 = Done c2 m2 /\
      c_time c1 = uint32 (clock (world m)) /\
      oldTime (globals m1) = c_time c1 /\
      clock (world m1) - clock (world m)
      = cycle_latency E c1 (sensor E (reads (world m))) /\
      c_dt_usec c2 = uint32 (cycle_latency E c1 (sensor E (reads (world m)))).
Proof.
  intros E m.
  destruct (loop_run m) as (c1 & m1 & R1 & C1).
  destruct (loop_run m1) as (c2 & m2 & R2 & C2).
  exists c1, m1, c2, m2.
  split; [exact R1|]. split; [exact R2|].
  split; [apply (cy_time _ _ _ C1)|]. split; [apply (cy_oldTime _ _ _ C1)|].
  pose proof (cy_clock _ _ _ C1) as K.
  split; [lia|].
  rewrite (cy_dt_usec _ _ _ C2), (cy_time _ _ _ C2), (cy_oldTime _ _ _ C1),
    (cy_time _ _ _ C1), uint32_sub.
  f_equal. lia.
Qed.

(** ** Offset correction *)

Lemma get_corrected a raw off :
  get a (corrected raw off) = int16 (get a raw - get a off).
Proof. destruct a; apply int16_int32. Qed.

(** C10.  [readSensor] stores in each 16-bit axis variable the difference
    of the raw reading and the 32-bit offset reduced modulo 2^16 into the
    signed 16-bit range.  The stored value equals the true difference when
    that difference fits in 16 bits, and differs from it by a non-zero
    multiple of 65536 when it does not. *)
Theorem corrected_sample_wraps :
  forall (E : Env) (m : Machine E),
    exists m',
      readSensor E m = Done tt m' /\
      forall a,
        let exact := get a (sensor E (reads (world m))) - get a (offsets (globals m)) in
        get a (cur (globals m')) = int16 exact /\
        in_int16 (get a (cur (globals m'))) /\
        (exists k, get a (cur (globals m')) = exact + k * 65536) /\
        (in_int16 exact -> get a (cur (globals m')) = exact) /\
        (~ in_int16 exact -> get a (cur (globals m')) <> exact).
Proof.
  intros E m.
  destruct m as [[c0 o0 f0 t0 k0 l0 tk0] [ck0 rd0 pd0 tr0]].
  unfold readSensor. crunch. eexists. split; [reflexivity|].
  intros a. crunch. cbv zeta.
  change (MkSample (int16 (int32 (s_ax (sensor E rd0) - s_ax o0)))
            (int16 (int32 (s_ay (sensor E rd0) - s_ay o0)))
            (int16 (int32 (s_az (sensor E rd0) - s_az o0)))
            (int16 (int32 (s_gx (sensor E rd0) - s_gx o0)))
            (int16 (int32 (s_gy (sensor E rd0) - s_gy o0)))
            (int16 (int32 (s_gz (sensor E rd0) - s_gz o0))))
    with (corrected (sensor E rd0) o0).
  rewrite get_corrected.
  split; [reflexivity|]. split; [apply int16_range|].
  split; [apply int16_congr|]. split; [apply int16_id|].
  intros Hn He. apply Hn. rewrite <- He. apply int16_range.
Qed.

(** ** The whole program *)

Lemma filter_implied (P Q : event -> bool) (l : list event) :
  (forall e, P e = true -> Q e = true) ->
  filter P l = filter P (filter Q l).
Proof.
  intros H. induction l as [|e l IH]; [reflexivity|].
  cbn [filter]. destruct (Q e) eqn:HQ.
  - cbn [filter]. destruct (P e); rewrite IH; reflexivity.
  - destruct (P e) eqn:HP; [|exact IH].
    apply H in HP. congruence.
Qed.

Lemma filter_sampling_nil (P : event -> bool) readings n : forall k,
  (forall s, P (EvGetMotion6 s) = false) -> P (EvDelay 5) = false ->
  filter P (sampling readings k n) = [].
Proof.
  induction n as [|n IH]; intros k Hg Hd; [reflexivity|].
  rewrite sampling_S, filter_app, (IH (S k) Hg Hd).
  cbn [filter]. rewrite Hg, Hd. reflexivity.
Qed.

(** A log of calibration holds nothing but LED writes, reads and pauses. *)
Lemma filter_calibration_nil (P : event -> bool) cal readings k n :
  filter not_led cal = sampling readings k n ->
  (forall e, P e = true -> not_led e = true) ->
  (forall s, P (EvGetMotion6 s) = false) -> P (EvDelay 5) = false ->
  filter P cal = [].
Proof.
  intros Hc Hi Hg Hd.
  rewrite (filter_implied P not_led cal Hi), Hc.
  apply filter_sampling_nil; assumption.
Qed.

Lemma cycles_filter {E : Env} (P : event -> bool) (f : Cycle -> event)
      (m : Machine E) cs m' :
  (forall c raw, filter P (cycle_events c raw) = [f c]) ->
  cycles_from m cs m' ->
  filter P (trace (world m')) = filter P (trace (world m)) ++ map f cs.
Proof.
  intros Hf. induction 1 as [m | m c m1 cs m2 H1 H2 IH].
  - cbn. rewrite app_nil_r. reflexivity.
  - rewrite IH, (cy_trace _ _ _ H1), filter_app, Hf, <- app_assoc. reflexivity.
Qed.

Lemma cycles_nth {E : Env} (m : Machine E) cs m' :
  cycles_from m cs m' ->
  forall i c, nth_error cs i = Some c ->
    exists mi mi' : Machine E,
      cycle_from mi c mi' /\
      offsets (globals mi) = offsets (globals m) /\
      reads (world mi) = (reads (world m) + i)%nat.
Proof.
  induction 1 as [m | m c0 m1 cs m2 H1 H2 IH]; intros i c Hi.
  - destruct i; discriminate.
  - destruct i as [|i]; cbn [nth_error] in Hi.
    + injection Hi as <-. exists m, m1. rewrite Nat.add_0_r. auto.
    + destruct (IH i c Hi) as (mi & mi' & C & O & N).
      exists mi, mi'. split; [exact C|].
      rewrite O, N, (cy_offsets _ _ _ H1), (cy_reads _ _ _ H1). split; [reflexivity | lia].
Qed.

Lemma filter_call_of_cycle c raw :
  filter is_filter_call (cycle_events c raw) = [filter_call c].
Proof.
  unfold cycle_events, motor_decision. cbn [filter is_filter_call].
  destruct (motor_gate (c_kalmanAngle c) (c_pidOutput c)); reflexivity.
Qed.

Lemma motor_decision_of_cycle c raw :
  filter is_motor (cycle_events c raw) = [motor_decision c].
Proof.
  unfold cycle_events, motor_decision. cbn [filter is_motor].
  destruct (motor_gate (c_kalmanAngle c) (c_pidOutput c)); reflexivity.
Qed.

Lemma power_on_reads (E : Env) : reads (world (power_on E)) = 0%nat.
Proof. reflexivity. Qed.

Lemma power_on_trace (E : Env) : trace (world (power_on E)) = [].
Proof. reflexivity. Qed.

(** With the sensor connected the program calibrates and then cycles. *)
Lemma firmware_run (E : Env) (n : nat) :
  testConnection E = true ->
  exists m0 cs m',
    setup E (power_on E) = Done tt m0 /\
    firmware E n = Done cs m' /\
    length cs = n /\
    cycles_from m0 cs m' /\
    offsets (globals m0) = fst (calibration (sensor E) 0) /\
    startPositionIsUp (globals m0) = snd (calibration (sensor E) 0) /\
    reads (world m0) = 512%nat /\
    (forall P : event -> bool,
       (forall e, P e = true -> not_led e = true) ->
       (forall s, P (EvGetMotion6 s) = false) ->
       (forall ms, P (EvDelay ms) = false) ->
       P EvInitMotors = false -> P EvSensorInitialize = false ->
       P (EvTestConnection true) = false -> P EvSetupMenu = false ->
       (forall t, P (EvMicros t) = false) ->
       (forall a, P (EvKalmanSetAngle a) = false) ->
       filter P (trace (world m0)) = []).
Proof.
  intros Hc.
  destruct (setup_run (power_on E) Hc) as (m0 & cal & t & R & O & F & N & _ & _ & S & T).
  rewrite power_on_reads in O, F, N, S. rewrite power_on_trace in T.
  destruct (loops_run n m0) as (cs & m' & RL & L & C).
  exists m0, cs, m'. split; [exact R|].
  split; [unfold firmware, bind; rewrite R; exact RL|].
  repeat (split; [assumption|]).
  intros P Hl Hg Hd H1 H2 H3 H4 H5 H6.
  assert (Hw : forall b, P (EvDigitalWrite b) = false).
  { intros b. destruct (P (EvDigitalWrite b)) eqn:HP; [|reflexivity].
    apply Hl in HP. discriminate. }
  rewrite T, !filter_app.
  rewrite (filter_calibration_nil P cal _ _ _ S Hl Hg (Hd 5)).
  cbn [filter]. rewrite ?H1, ?H2, ?H3, ?H5, ?H6, ?Hw, ?Hd.
  destruct (serial_available E); cbn [filter]; rewrite ?H4; reflexivity.
Qed.

(** Without the sensor the program stops in [setup], for good. *)
Lemma firmware_halt (E : Env) (n : nat) :
  testConnection E = false ->
  exists m,
    firmware E n = Hang m /\
    globals m = globals (power_on E) /\
    reads (world m) = 0%nat /\
    trace (world m) = [EvInitMotors; EvSensorInitialize; EvTestConnection false].
Proof.
  intros Hc. unfold firmware, setup. rewrite Hc. unfold power_on. crunch.
  eexists. split; [reflexivity|]. crunch. repeat split.
Qed.

(** C7.  Whatever the number of passes through [loop], the six offsets
    the program ends with are those calibration computed, so nothing
    after calibration changes them; and in each pass the values handed to
    [getAccAngle] and to the filter are conversions of the raw reading of
    that pass with the calibrated offsets subtracted axis by axis.  The
    filter is called once per pass, with those values, and never with
    anything else. *)
Theorem offsets_fixed_and_applied :
  forall (E : Env) (n : nat),
    testConnection E = true ->
    exists cs m',
      firmware E n = Done cs m' /\
      length cs = n /\
      offsets (globals m') = fst (calibration (sensor E) 0) /\
      (forall i c, nth_error cs i = Some c ->
         let s := corrected (sensor E (512 + i)) (fst (calibration (sensor E) 0)) in
         c_gyroYRate c = gyro_rate (s_gy s) /\
         c_accX c = acceleration (s_ax s) /\
         c_accZ c = acceleration (s_az s) /\
         c_accAngle c = getAccAngle E (acceleration (s_ax s)) (acceleration (s_az s))) /\
      filter is_filter_call (trace (world m')) = map filter_call cs.
Proof.
  intros E n Hc.
  destruct (firmware_run E n Hc) as (m0 & cs & m' & _ & R & L & C & O & _ & N & Hq).
  exists cs, m'. split; [exact R|]. split; [exact L|].
  destruct (cycles_offsets m0 cs m' C) as (O' & _ & _).
  split; [rewrite O', O; reflexivity|]. split.
  - intros i c Hi. cbv zeta.
    destruct (cycles_nth m0 cs m' C i c Hi) as (mi & mi' & Ci & Oi & Ni).
    rewrite (cy_accAngle _ _ _ Ci), (cy_gyro _ _ _ Ci), (cy_accX _ _ _ Ci),
      (cy_accZ _ _ _ Ci), (cy_cur _ _ _ Ci), Oi, Ni, O, N.
    repeat split.
  - rewrite (cycles_filter is_filter_call filter_call m0 cs m' filter_call_of_cycle C).
    rewrite (Hq is_filter_call); try reflexivity.
    intros e He. destruct e; try discriminate; reflexivity.
Qed.

Lemma offsets_fixed_and_applied_witness :
  exists cs m',
    firmware Bench.still 3 = Done cs m' /\
    length cs = 3%nat /\
    offsets (globals m') = fst (calibration (sensor Bench.still) 0) /\
    (forall i c, nth_error cs i = Some c ->
       let s := corrected (sensor Bench.still (512 + i))
                  (fst (calibration (sensor Bench.still) 0)) in
       c_gyroYRate c = gyro_rate (s_gy s) /\
       c_accX c = acceleration (s_ax s) /\
       c_accZ c = acceleration (s_az s) /\
       c_accAngle c
       = getAccAngle Bench.still (acceleration (s_ax s)) (acceleration (s_az s))) /\
    filter is_filter_call (trace (world m')) = map filter_call cs.
Proof.
  apply (offsets_fixed_and_applied Bench.still 3). reflexivity.
Defined.

(** C8.  If the connectivity check fails, the program stops inside
    [setup] and stays there however long it runs: the sensor is never
    read, so calibration never runs, [loop] is never entered and no
    command is ever sent to the motors.  If the check succeeds, [setup]
    completes, having taken the 512 calibration readings, and [loop] runs
    pass after pass, sending the motors one command per pass. *)
Theorem connection_failure_halts :
  forall (E : Env) (n : nat),
    (testConnection E = false ->
       exists m,
         firmware E n = Hang m /\
         trace (world m) = [EvInitMotors; EvSensorInitialize; EvTestConnection false] /\
         reads (world m) = 0%nat /\
         offsets (globals m) = zero_sample /\
         filter is_motor (trace (world m)) = []) /\
    (testConnection E = true ->
       exists m0 cs m',
         setup E (power_on E) = Done tt m0 /\
         reads (world m0) = 512%nat /\
         offsets (globals m0) = fst (calibration (sensor E) 0) /\
         firmware E n = Done cs m' /\
         length cs = n /\
         reads (world m') = (512 + n)%nat /\
         filter is_motor (trace (world m')) = map motor_decision cs).
Proof.
  intros E n. split; intros Hc.
  - destruct (firmware_halt E n Hc) as (m & R & G & N & T).
    exists m. split; [exact R|]. split; [exact T|]. split; [exact N|].
    split; [rewrite G; reflexivity|]. rewrite T. reflexivity.
  - destruct (firmware_run E n Hc) as (m0 & cs & m' & R0 & R & L & C & O & _ & N & Hq).
    exists m0, cs, m'. repeat (split; [assumption|]).
    destruct (cycles_offsets m0 cs m' C) as (_ & _ & N').
    split; [rewrite N', N, L; reflexivity|].
    rewrite (cycles_filter is_motor motor_decision m0 cs m' motor_decision_of_cycle C).
    rewrite (Hq is_motor); try reflexivity.
    intros e He. destruct e; try discriminate; reflexivity.
Qed.

Lemma connection_failure_halts_witness :
  (exists m,
     firmware (Bench.env false (Bench.steady zero_sample)) 3 = Hang m /\
     trace (world m) = [EvInitMotors; EvSensorInitialize; EvTestConnection false] /\
     reads (world m) = 0%nat /\
     offsets (globals m) = zero_sample /\
     filter is_motor (trace (world m)) = []) /\
  (exists m0 cs m',
     setup Bench.still (power_on Bench.still) = Done tt m0 /\
     reads (world m0) = 512%nat /\
     offsets (globals m0) = fst (calibration (sensor Bench.still) 0) /\
     firmware Bench.still 3 = Done cs m' /\
     length cs = 3%nat /\
     reads (world m') = (512 + 3)%nat /\
     filter is_motor (trace (world m')) = map motor_decision cs).
Proof.
  split.
  - apply (connection_failure_halts (Bench.env false (Bench.steady zero_sample)) 3).
    reflexivity.
  - apply (connection_failure_halts Bench.still 3). reflexivity.
Defined.

(** The wrap of C10 happens in a run of the program: calibrated upright
    at a steady 16000, the gravity-axis offset is -384, and a later raw
    reading of 32767 is stored as -32385 instead of 33151. *)
Example wrap_is_reachable :
  let E := Bench.env true
             (fun k => if (k <? 512)%nat then MkSample 16000 0 0 0 0 0
                       else MkSample 32767 0 0 0 0 0) in
  s_ax (offsets (globals (state_of (firmware E 1)))) = -384 /\
  s_ax (cur (globals (state_of (firmware E 1)))) = -32385 /\
  32767 - (-384) = 33151.
Proof. vm_compute. repeat split. Qed.

(** [getAccAngle] on the four axis directions, with the bench [atan2]
    (which answers there as the C standard prescribes): the conversion to
    degrees gives exactly 0, 90, -90 and 180. *)
Example getAccAngle_on_the_axes :
  getAccAngle Bench.still (of_int 0) (of_int (-1)) = of_int 0 /\
  getAccAngle Bench.still (of_int 1) (of_int 0) = of_int 90 /\
  getAccAngle Bench.still (of_int (-1)) (of_int 0) = of_int (-90) /\
  getAccAngle Bench.still (of_int 0) (of_int 1) = of_int 180.
Proof. vm_compute. repeat split. Qed.

(** * The accelerometer angle *)

(** ** Rounding to binary32 *)














(** ** Radians to degrees *)


Lemma HALF_PI_bits : HALF_PI = S754_finite false 13176795 (-23).
Proof. vm_compute. reflexivity. Qed.

Lemma PI_bits : PI = S754_finite false 13176795 (-22).
Proof. vm_compute. reflexivity. Qed.










(** ** Magnitudes as rationals *)















(** * Further properties of the sketch *)

(** ** The gate *)

Lemma gate_test_fneg a :
  flt (abs (fneg a)) (of_int 30) = flt (abs a) (of_int 30).
Proof. destruct a as [s | s | | s m e]; try destruct s; reflexivity. Qed.

(** X1.  The gate looks at the magnitude of the fused angle only: an angle
    and its opposite get the same decision, and whether the motors are
    stopped does not depend on the drive command. *)
Theorem gate_depends_on_magnitude_only :
  forall angle cmd cmd',
    motor_gate (fneg angle) cmd = motor_gate angle cmd /\
    (motor_gate angle cmd = StopMotors <-> motor_gate angle cmd' = StopMotors) /\
    (motor_gate angle cmd = RunMotors cmd <-> motor_gate angle cmd' = RunMotors cmd').
Proof.
  intros angle cmd cmd'. unfold motor_gate. rewrite gate_test_fneg.
  destruct (flt (abs angle) (of_int 30)); repeat split; intros; try reflexivity;
    discriminate.
Qed.

(** ** The range of the offsets *)

Lemma axis_total_between a readings lo hi n : forall k,
  (forall i, (i < n)%nat -> lo <= get a (readings (k + i)%nat) <= hi) ->
  Z.of_nat n * lo <= axis_total a readings k n <= Z.of_nat n * hi.
Proof.
  induction n as [|n IH]; intros k H.
  - unfold axis_total. cbn. lia.
  - rewrite axis_total_S.
    pose proof (H 0%nat ltac:(lia)) as H0. rewrite Nat.add_0_r in H0.
    assert (Hn : forall i, (i < n)%nat -> lo <= get a (readings (S k + i)%nat) <= hi).
    { intros i Hi. replace (S k + i)%nat with (k + S i)%nat by lia. apply H. lia. }
    specialize (IH (S k) Hn). lia.
Qed.

Lemma mean_between a readings lo hi k :
  (forall i, (i < 512)%nat -> lo <= get a (readings (k + i)%nat) <= hi) ->
  lo <= axis_total a readings k 512 / 512 <= hi.
Proof.
  intros H. pose proof (axis_total_between a readings lo hi 512 k H) as B.
  change (Z.of_nat 512) with 512 in B. split.
  - apply Z.div_le_lower_bound; lia.
  - apply Z.div_le_upper_bound; lia.
Qed.

Lemma mean_in_int16 a readings k :
  (forall i, sample_in_int16 (readings i)) ->
  in_int16 (axis_total a readings k 512 / 512).
Proof.
  intros Hr. apply mean_between. intros i _. apply get_in_int16, Hr.
Qed.

(** The offsets of a calibration over 16-bit readings, axis by axis. *)
Lemma calibration_offsets a readings k :
  (forall i, sample_in_int16 (readings i)) ->
  get a (fst (calibration readings k))
  = match a with
    | AX => if 0 <? axis_total AX readings k 512 / 512
            then axis_total AX readings k 512 / 512 - 16384
            else axis_total AX readings k 512 / 512 + 16384
    | _ => axis_total a readings k 512 / 512
    end.
Proof.
  intros Hr.
  assert (Hother : a <> AX ->
            get a (fst (calibration readings k)) = axis_total a readings k 512 / 512).
  { intros Ha. rewrite (finish_calibration_other a _ Ha).
    destruct (accumulate_512 a readings k Hr) as [H _]. rewrite H. reflexivity. }
  destruct a; try (apply Hother; discriminate).
  rewrite get_AX.
  destruct (finish_calibration_ax (accumulate readings k 512 zero_sample)) as [_ Hx].
  rewrite Hx.
  destruct (accumulate_512_ax readings k Hr) as [H _]. rewrite H.
  pose proof (mean_in_int16 AX readings k Hr) as B. unfold in_int16 in B.
  destruct (0 <? axis_total AX readings k 512 / 512);
    apply int32_id; unfold in_int32; lia.
Qed.

(** X2.  After a calibration over 16-bit readings every offset fits in
    16 bits and the gravity-axis offset lies within -16384 .. 16384; the
    32-bit subtraction of [readSensor] can therefore never overflow, for
    any later 16-bit reading, so that only the final narrowing to 16 bits
    can wrap. *)
Theorem calibrated_offsets_are_small :
  forall (E : Env) (m : Machine E),
    (forall i, sample_in_int16 (sensor E i)) ->
    exists m',
      calibrate E m = Done tt m' /\
      (forall a, in_int16 (get a (offsets (globals m')))) /\
      -16384 <= s_ax (offsets (globals m')) <= 16384 /\
      (forall a raw, in_int16 raw ->
         int32 (raw - get a (offsets (globals m')))
         = raw - get a (offsets (globals m'))).
Proof.
  intros E m Hr.
  destruct (calibrate_run m) as (m' & evs & R & O & _).
  exists m'. split; [exact R|].
  assert (Hall : forall a, in_int16 (get a (offsets (globals m')))).
  { intros a. rewrite O, (calibration_offsets a _ _ Hr).
    pose proof (mean_in_int16 a (sensor E) (reads (world m)) Hr) as B.
    destruct a; try exact B.
    unfold in_int16 in *.
    destruct (Z.ltb_spec 0 (axis_total AX (sensor E) (reads (world m)) 512 / 512)); lia. }
  split; [exact Hall|]. split.
  - rewrite <- get_AX, O, (calibration_offsets AX _ _ Hr).
    pose proof (mean_in_int16 AX (sensor E) (reads (world m)) Hr) as B.
    unfold in_int16 in B.
    destruct (Z.ltb_spec 0 (axis_total AX (sensor E) (reads (world m)) 512 / 512)); lia.
  - intros a raw Hraw. apply int32_id.
    specialize (Hall a). unfold in_int16, in_int32 in *. lia.
Qed.

Lemma calibrated_offsets_are_small_witness :
  exists m',
    calibrate Bench.face_down (power_on Bench.face_down) = Done tt m' /\
    (forall a, in_int16 (get a (offsets (globals m')))) /\
    -16384 <= s_ax (offsets (globals m')) <= 16384 /\
    (forall a raw, in_int16 raw ->
       int32 (raw - get a (offsets (globals m')))
       = raw - get a (offsets (globals m'))).
Proof.
  apply (calibrated_offsets_are_small Bench.face_down (power_on Bench.face_down)).
  intros i. unfold sample_in_int16, in_int16. cbn. lia.
Defined.

(** X3.  The offset of an axis other than the gravity axis lies between
    the smallest and the largest of its 512 readings: if they all lie in
    [lo .. hi], so does the offset. *)
Theorem offset_between_extreme_readings :
  forall (E : Env) (m : Machine E) (a : axis) (lo hi : Z),
    (forall i, sample_in_int16 (sensor E i)) ->
    a <> AX ->
    (forall i, (i < 512)%nat ->
       lo <= get a (sensor E (reads (world m) + i)%nat) <= hi) ->
    exists m',
      calibrate E m = Done tt m' /\
      lo <= get a (offsets (globals m')) <= hi.
Proof.
  intros E m a lo hi Hr Ha Hb.
  destruct (calibrate_run m) as (m' & evs & R & O & _).
  exists m'. split; [exact R|].
  rewrite O, (calibration_offsets a _ _ Hr).
  pose proof (mean_between a (sensor E) lo hi (reads (world m)) Hb) as B.
  destruct a; try exact B. congruence.
Qed.

Lemma offset_between_extreme_readings_witness :
  exists m',
    calibrate Bench.face_down (power_on Bench.face_down) = Done tt m' /\
    -3 <= get GY (offsets (globals m')) <= 4.
Proof.
  apply (offset_between_extreme_readings Bench.face_down (power_on Bench.face_down) GY).
  - intros i. unfold sample_in_int16, in_int16. cbn. lia.
  - discriminate.
  - intros i Hi. cbn. lia.
Defined.

(** X4.  The start position is taken as up exactly when the 512
    gravity-axis readings sum to at least 512: readings whose sum is
    between 1 and 511, although positive on average, count as down. *)
Theorem orientation_threshold_on_the_sum :
  forall (E : Env) (m : Machine E),
    (forall i, sample_in_int16 (sensor E i)) ->
    exists m',
      calibrate E m = Done tt m' /\
      (startPositionIsUp (globals m') = true
       <-> 512 <= axis_total AX (sensor E) (reads (world m)) 512) /\
      (0 < axis_total AX (sensor E) (reads (world m)) 512 < 512 ->
       startPositionIsUp (globals m') = false).
Proof.
  intros E m Hr.
  destruct (calibrate_run m) as (m' & evs & R & _ & F & _).
  exists m'. split; [exact R|].
  destruct (finish_calibration_ax (accumulate (sensor E) (reads (world m)) 512 zero_sample))
    as [Hf _].
  destruct (accumulate_512_ax (sensor E) (reads (world m)) Hr) as [H _].
  rewrite H in Hf. rewrite F, Hf.
  generalize (axis_total AX (sensor E) (reads (world m)) 512). intros t.
  pose proof (Z.div_mod t 512 ltac:(lia)).
  pose proof (Z.mod_pos_bound t 512 ltac:(lia)).
  destruct (Z.ltb_spec 0 (t / 512));
    repeat split; intros; try reflexivity; try discriminate; lia.
Qed.

Lemma orientation_threshold_on_the_sum_witness :
  exists m',
    calibrate Bench.face_down (power_on Bench.face_down) = Done tt m' /\
    (startPositionIsUp (globals m') = true
     <-> 512 <= axis_total AX (sensor Bench.face_down)
                  (reads (world (power_on Bench.face_down))) 512) /\
    (0 < axis_total AX (sensor Bench.face_down)
           (reads (world (power_on Bench.face_down))) 512 < 512 ->
     startPositionIsUp (globals m') = false).
Proof.
  apply (orientation_threshold_on_the_sum Bench.face_down (power_on Bench.face_down)).
  intros i. unfold sample_in_int16, in_int16. cbn. lia.
Defined.

(** ** A robot at rest *)

Lemma sample_ext (s1 s2 : Sample) :
  (forall a, get a s1 = get a s2) -> s1 = s2.
Proof.
  intros H. destruct s1, s2.
  pose proof (H AX). pose proof (H AY). pose proof (H AZ).
  pose proof (H GX). pose proof (H GY). pose proof (H GZ).
  cbn in *. congruence.
Qed.

(** Calibrated and then read at the same steady attitude, the sensor
    shows one g on the gravity axis and nothing on the others. *)
Lemma steady_corrected readings s k :
  (forall i, readings i = s) -> sample_in_int16 s ->
  corrected s (fst (calibration readings k))
  = MkSample (if 0 <? s_ax s then 16384 else -16384) 0 0 0 0 0.
Proof.
  intros Hs Hi.
  assert (Hr : forall i, sample_in_int16 (readings i)) by (intros i; rewrite Hs; exact Hi).
  assert (Hm : forall a, axis_total a readings k 512 / 512 = get a s).
  { intros a. rewrite (axis_total_const a readings (get a s) 512 k)
      by (intros i _; rewrite Hs; reflexivity).
    change (Z.of_nat 512) with 512. rewrite Z.mul_comm. apply Z.div_mul. lia. }
  apply sample_ext. intros a.
  rewrite get_corrected, (calibration_offsets a readings k Hr), !Hm.
  destruct a; cbn [get s_ax s_ay s_az s_gx s_gy s_gz];
    try (rewrite Z.sub_diag; reflexivity).
  destruct (0 <? s_ax s).
  - replace (s_ax s - (s_ax s - 16384)) with 16384 by lia. reflexivity.
  - replace (s_ax s - (s_ax s + 16384)) with (-16384) by lia. reflexivity.
Qed.

(** X5.  A robot that is held still, so that the sensor gives the same
    16-bit sample throughout, is seen after calibration as exactly at
    rest: in every pass through [loop] the corrected sample is one g
    (16384, or -16384 when the gravity-axis reading is not positive) on
    the gravity axis and 0 on the other five, the acceleration along x is
    9.81 or -9.81 and the acceleration along z and the rate are zero. *)
Theorem steady_robot_reads_one_g :
  forall (E : Env) (n : nat) (s : Sample),
    testConnection E = true ->
    (forall k, sensor E k = s) ->
    sample_in_int16 s ->
    exists cs m',
      firmware E n = Done cs m' /\
      length cs = n /\
      corrected s (offsets (globals m'))
      = MkSample (if 0 <? s_ax s then 16384 else -16384) 0 0 0 0 0 /\
      forall c, In c cs ->
        c_accX c = (if 0 <? s_ax s then literal 981 100 else fneg (literal 981 100)) /\
        c_accZ c = of_int 0 /\
        c_gyroYRate c = of_int 0.
Proof.
  intros E n s Hc Hs Hi.
  destruct (firmware_run E n Hc) as (m0 & cs & m' & _ & R & L & C & O & _).
  destruct (cycles_offsets m0 cs m' C) as (O' & _ & _).
  pose proof (steady_corrected (sensor E) s 0 Hs Hi) as Hcor.
  exists cs, m'. split; [exact R|]. split; [exact L|].
  split; [rewrite O', O; exact Hcor|].
  intros c Hin. apply In_nth_error in Hin. destruct Hin as [i Hn].
  destruct (cycles_nth m0 cs m' C i c Hn) as (mi & mi' & Ci & Oi & _).
  rewrite (cy_accX _ _ _ Ci), (cy_accZ _ _ _ Ci), (cy_gyro _ _ _ Ci),
    (cy_cur _ _ _ Ci), Oi, O, Hs, Hcor.
  cbn [s_ax s_az s_gy].
  destruct (0 <? s_ax s); repeat split; vm_compute; reflexivity.
Qed.

Lemma steady_robot_reads_one_g_witness :
  exists cs m',
    firmware Bench.face_down 2 = Done cs m' /\
    length cs = 2%nat /\
    corrected (MkSample (-16200) 0 0 0 0 0) (offsets (globals m'))
    = MkSample (if 0 <? s_ax (MkSample (-16200) 0 0 0 0 0) then 16384 else -16384)
        0 0 0 0 0 /\
    forall c, In c cs ->
      c_accX c = (if 0 <? s_ax (MkSample (-16200) 0 0 0 0 0)
                  then literal 981 100 else fneg (literal 981 100)) /\
      c_accZ c = of_int 0 /\
      c_gyroYRate c = of_int 0.
Proof.
  apply (steady_robot_reads_one_g Bench.face_down 2 (MkSample (-16200) 0 0 0 0 0)).
  - reflexivity.
  - intros k. reflexivity.
  - unfold sample_in_int16, in_int16. cbn. lia.
Defined.

(** ** The corrector runs in every pass *)

Lemma cycles_filter_list {E : Env} (P : event -> bool) (f : Cycle -> list event)
      (m : Machine E) cs m' :
  (forall c raw, filter P (cycle_events c raw) = f c) ->
  cycles_from m cs m' ->
  filter P (trace (world m')) = filter P (trace (world m)) ++ flat_map f cs.
Proof.
  intros Hf. induction 1 as [m | m c m1 cs m2 H1 H2 IH].
  - cbn. rewrite app_nil_r. reflexivity.
  - rewrite IH, (cy_trace _ _ _ H1), filter_app, Hf, <- app_assoc. reflexivity.
Qed.



(** ** The seed of the filter *)

(** X7.  [setup] starts the filter afresh and seeds it with +90 degrees
    when the integer mean of the gravity-axis readings is positive and
    with -90 degrees otherwise: the filter's state after [setup] does not
    depend on what it was before. *)
Theorem filter_seed_follows_orientation :
  forall (E : Env) (m : Machine E),
    testConnection E = true ->
    (forall i, sample_in_int16 (sensor E i)) ->
    exists m',
      setup E m = Done tt m' /\
      KFilter (globals m')
      = kalman_setAngle E (kalman_new E)
          (if 0 <? axis_total AX (sensor E) (reads (world m)) 512 / 512
           then literal 90 1 else fneg (literal 90 1)) /\
      (F2Q (literal 90 1) == 90)%Q /\
      (F2Q (fneg (literal 90 1)) == -90)%Q.
Proof.
  intros E m Hc Hr.
  destruct (setup_run m Hc) as (m' & cal & t & R & _ & _ & _ & K & _).
  exists m'. split; [exact R|].
  destruct (finish_calibration_ax (accumulate (sensor E) (reads (world m)) 512 zero_sample))
    as [Hf _].
  destruct (accumulate_512_ax (sensor E) (reads (world m)) Hr) as [H _].
  rewrite H in Hf. rewrite Hf in K.
  split; [|split; reflexivity].
  rewrite K. unfold seed_angle. reflexivity.
Qed.

Lemma filter_seed_follows_orientation_witness :
  exists m',
    setup Bench.face_down (power_on Bench.face_down) = Done tt m' /\
    KFilter (globals m')
    = kalman_setAngle Bench.face_down (kalman_new Bench.face_down)
        (if 0 <? axis_total AX (sensor Bench.face_down)
                   (reads (world (power_on Bench.face_down))) 512 / 512
         then literal 90 1 else fneg (literal 90 1)) /\
    (F2Q (literal 90 1) == 90)%Q /\
    (F2Q (fneg (literal 90 1)) == -90)%Q.
Proof.
  apply (filter_seed_follows_orientation Bench.face_down (power_on Bench.face_down)).
  - reflexivity.
  - intros i. unfold sample_in_int16, in_int16. cbn. lia.
Defined.

(** ** The LED and the clock during calibration *)

Lemma iter_negb_swap j b : Nat.iter j negb (negb b) = negb (Nat.iter j negb b).
Proof.
  induction j as [|j IH]; [reflexivity|].
  rewrite !Nat.iter_succ, IH. reflexivity.
Qed.

Lemma alternating_app j1 : forall b j2,
  alternating b j1 ++ alternating (Nat.iter j1 negb b) j2 = alternating b (j1 + j2).
Proof.
  induction j1 as [|j1 IH]; intros b j2; [reflexivity|].
  cbn [alternating Nat.add app].
  rewrite <- IH, iter_negb_swap. reflexivity.
Qed.

Lemma total_cost_app E l1 l2 :
  total_cost E (l1 ++ l2) = total_cost E l1 + total_cost E l2.
Proof.
  unfold total_cost. induction l1 as [|e l1 IH]; cbn in *; [reflexivity | lia].
Qed.

Lemma total_cost_nonneg E l :
  (forall ev, 0 <= cost E ev) -> 0 <= total_cost E l.
Proof.
  intros H. unfold total_cost. induction l as [|e l IH]; cbn; [lia|].
  specialize (H e). lia.
Qed.

Section Blinking.

Context {E : Env}.

(** What one sampling pass does to the LED and to the clock. *)
Lemma calibrate_body_led sums (m : Machine E) :
  exists sums' m' evs j,
    calibrate_body E sums m = Done sums' m' /\
    trace (world m') = trace (world m) ++ evs /\
    (j <= 1)%nat /\
    filter is_led evs = alternating (ledState (globals m)) j /\
    ledState (globals m') = Nat.iter j negb (ledState (globals m)) /\
    clock (world m') = clock (world m) + total_cost E evs + 5000.
Proof.
  destruct m as [[c0 o0 f0 t0 k0 l0 tk0] [ck0 rd0 pd0 tr0]].
  unfold calibrate_body. crunch.
  destruct (ticker_update E tk0 (uint32 (ck0 / 1000))) as [[|] tk'].
  - eexists; eexists; eexists; exists 1%nat.
    split; [reflexivity|]. crunch.
    split; [rewrite <- !app_assoc; reflexivity|].
    split; [lia|]. split; [reflexivity|]. split; [reflexivity|].
    unfold total_cost. cbn [app map fold_right]. lia.
  - eexists; eexists; eexists; exists 0%nat.
    split; [reflexivity|]. crunch.
    split; [rewrite <- !app_assoc; reflexivity|].
    split; [lia|]. split; [reflexivity|]. split; [reflexivity|].
    unfold total_cost. cbn [app map fold_right]. lia.
Qed.

Lemma for_loop_calibrate_led n : forall sums (m : Machine E),
  exists sums' m' evs j,
    for_loop E n (calibrate_body E) sums m = Done sums' m' /\
    trace (world m') = trace (world m) ++ evs /\
    (j <= n)%nat /\
    filter is_led evs = alternating (ledState (globals m)) j /\
    ledState (globals m') = Nat.iter j negb (ledState (globals m)) /\
    clock (world m') = clock (world m) + total_cost E evs + 5000 * Z.of_nat n.
Proof.
  induction n as [|n IH]; intros sums m.
  - exists sums, m, [], 0%nat. cbn [for_loop]. unfold ret.
    rewrite app_nil_r. repeat split; [lia|]. unfold total_cost. cbn. lia.
  - destruct (calibrate_body_led sums m) as (s1 & m1 & ev1 & j1 & R1 & T1 & J1 & F1 & L1 & K1).
    destruct (IH s1 m1) as (s2 & m2 & ev2 & j2 & R2 & T2 & J2 & F2 & L2 & K2).
    exists s2, m2, (ev1 ++ ev2), (j1 + j2)%nat.
    cbn [for_loop]. unfold bind at 1. rewrite R1.
    split; [exact R2|].
    split; [rewrite T2, T1, app_assoc; reflexivity|].
    split; [lia|].
    split; [rewrite filter_app, F1, F2, L1; apply alternating_app|].
    split.
    + rewrite L2, L1, Nat.add_comm. symmetry. apply Nat.iter_add.
    + rewrite K2, K1, total_cost_app. lia.
Qed.

Lemma calibrate_led (m : Machine E) :
  exists m' evs j,
    calibrate E m = Done tt m' /\
    trace (world m') = trace (world m) ++ evs /\
    filter not_led evs = sampling (sensor E) (reads (world m)) 512 /\
    (j <= 512)%nat /\
    filter is_led evs = alternating (ledState (globals m)) j /\
    ledState (globals m') = Nat.iter j negb (ledState (globals m)) /\
    clock (world m') = clock (world m) + total_cost E evs + 2560000.
Proof.
  destruct (calibrate_run m) as (m' & evs & R & _ & _ & _ & _ & _ & _ & T & S).
  destruct (for_loop_calibrate_led 512 zero_sample m)
    as (s1 & m1 & ev1 & j & R1 & T1 & J & F1 & L1 & K1).
  assert (Hm : globals m' = globals (state_of (calibrate E m)) /\
               world m' = world m1).
  { rewrite R. split; [reflexivity|].
    revert R. unfold calibrate, bind at 1. rewrite R1.
    unfold bind, modify, gets. cbn [globals world].
    destruct (0 <? _); intros R; injection R as <-; reflexivity. }
  destruct Hm as [_ Hw].
  assert (Hl : ledState (globals m') = ledState (globals m1)).
  { revert R. unfold calibrate, bind at 1. rewrite R1.
    unfold bind, modify, gets. cbn [globals world].
    destruct (0 <? _); intros R; injection R as <-; reflexivity. }
  assert (He : evs = ev1).
  { apply (app_inv_head (trace (world m))). rewrite <- T, <- T1, Hw. reflexivity. }
  subst ev1.
  exists m', evs, j. split; [exact R|]. split; [exact T|]. split; [exact S|].
  split; [exact J|]. split; [exact F1|].
  split; [rewrite Hl; exact L1|].
  rewrite Hw, K1. change (5000 * Z.of_nat 512) with 2560000. reflexivity.
Qed.

End Blinking.

Section Startup.

Context {E : Env}.

(** The whole of [setup], with its LED writes and its clock. *)
Lemma setup_led (m : Machine E) :
  testConnection E = true ->
  exists m' cal j evs,
    setup E m = Done tt m' /\
    trace (world m') = trace (world m) ++ evs /\
    evs = [EvInitMotors; EvSensorInitialize; EvTestConnection true; EvDelay 3000]
          ++ cal
          ++ [EvDigitalWrite false;
              EvKalmanSetAngle (seed_angle (startPositionIsUp (globals m')));
              EvDelay 3000]
          ++ (if serial_available E then [EvSetupMenu] else [])
          ++ [EvMicros (oldTime (globals m')); EvDigitalWrite true] /\
    filter not_led cal = sampling (sensor E) (reads (world m)) 512 /\
    (j <= 512)%nat /\
    filter is_led cal = alternating (ledState (globals m)) j /\
    ledState (globals m') = true /\
    clock (world m') = clock (world m) + total_cost E evs + 8560000 /\
    oldTime (globals m')
    = uint32 (clock (world m') - cost E (EvMicros (oldTime (globals m')))
              - cost E (EvDigitalWrite true)).
Proof.
  intros Hc. unfold setup. rewrite Hc.
  destruct m as [[c0 o0 f0 t0 k0 l0 tk0] [ck0 rd0 pd0 tr0]].
  crunch.
  match goal with |- context [calibrate E ?m1] =>
    destruct (calibrate_led m1) as (m2 & cal & j & R & T & S & J & F & L & K)
  end.
  rewrite R. clear R.
  destruct m2 as [[c2 o2 f2 t2 k2 l2 tk2] [ck2 rd2 pd2 tr2]].
  crunch. crunch in T. crunch in S. crunch in F. crunch in K.
  subst tr2 ck2.
  rewrite seed_angle_eq.
  destruct (serial_available E); crunch;
    eexists; exists cal, j; eexists; (split; [reflexivity|]); crunch;
    (split; [rewrite <- !app_assoc; reflexivity|]);
    (split; [reflexivity|]); (split; [exact S|]); (split; [exact J|]);
    (split; [exact F|]); (split; [reflexivity|]);
    (split; [rewrite !total_cost_app; unfold total_cost; cbn [map fold_right]; lia|]);
    f_equal; lia.
Qed.

End Startup.

(** ** The LED over the whole program *)

Lemma loop_keeps_led {E : Env} (m : Machine E) :
  exists c m',
    loop E m = Done c m' /\ ledState (globals m') = ledState (globals m).
Proof.
  destruct m as [[c0 o0 f0 t0 k0 l0 tk0] [ck0 rd0 pd0 tr0]].
  unfold loop, readSensor. crunch.
  destruct (kalman_getAngle E k0 _ _ _) as [angle k1].
  destruct (pid_update E pd0 angle _) as [out p1].
  destruct (flt (abs angle) (of_int 30)); crunch;
    eexists; eexists; (split; [reflexivity|]); crunch; reflexivity.
Qed.

Lemma loops_keep_led {E : Env} n : forall m : Machine E,
  exists cs m',
    loops E n m = Done cs m' /\ ledState (globals m') = ledState (globals m).
Proof.
  induction n as [|n IH]; intros m.
  - exists [], m. split; reflexivity.
  - destruct (loop_keeps_led m) as (c & m1 & R1 & L1).
    destruct (IH m1) as (cs & m2 & R2 & L2).
    exists (c :: cs), m2. cbn [loops]. unfold bind at 1. rewrite R1.
    unfold bind at 1. rewrite R2. unfold ret. split; [reflexivity | congruence].
Qed.

Lemma led_of_cycle c raw : filter is_led (cycle_events c raw) = [].
Proof.
  unfold cycle_events, motor_decision. cbn [filter is_led].
  destruct (motor_gate (c_kalmanAngle c) (c_pidOutput c)); reflexivity.
Qed.

Lemma flat_map_nothing (cs : list Cycle) :
  flat_map (fun _ : Cycle => @nil event) cs = [].
Proof. induction cs as [|c cs IH]; [reflexivity | exact IH]. Qed.

Lemma firmware_after_setup (E : Env) (n : nat) m0 :
  setup E (power_on E) = Done tt m0 -> firmware E n = loops E n m0.
Proof. intros R. unfold firmware, bind. rewrite R. reflexivity. Qed.

(** X8.  The LED over a whole run: during calibration its level is
    written at most 512 times, alternating from low (never the same level
    twice in a row); then it is switched off, then on at the end of
    [setup]; [loop] never writes it, so it stays lit, with [ledState]
    true, for as long as the robot balances. *)
Theorem led_history :
  forall (E : Env) (n : nat),
    testConnection E = true ->
    exists cs m' j,
      firmware E n = Done cs m' /\
      (j <= 512)%nat /\
      filter is_led (trace (world m'))
      = alternating false j ++ [EvDigitalWrite false; EvDigitalWrite true] /\
      ledState (globals m') = true.
Proof.
  intros E n Hc.
  destruct (setup_led (power_on E) Hc)
    as (m0 & cal & j & evs & R0 & T0 & Ev & _ & J & F & L & _).
  destruct (loops_run n m0) as (cs & m' & RL & _ & C).
  destruct (loops_keep_led n m0) as (cs' & m'' & RL' & L').
  rewrite RL in RL'. injection RL' as <- <-.
  exists cs, m', j.
  split; [rewrite (firmware_after_setup E n m0 R0); exact RL|].
  split; [exact J|]. split; [|congruence].
  rewrite (cycles_filter_list is_led (fun _ => []) m0 cs m' led_of_cycle C).
  rewrite flat_map_nothing, app_nil_r, T0, power_on_trace, Ev. cbn [app].
  cbn [filter is_led]. rewrite !filter_app, F.
  cbn [filter is_led app].
  destruct (serial_available E); reflexivity.
Qed.

Lemma led_history_witness :
  exists cs m' j,
    firmware Bench.still 2 = Done cs m' /\
    (j <= 512)%nat /\
    filter is_led (trace (world m'))
    = alternating false j ++ [EvDigitalWrite false; EvDigitalWrite true] /\
    ledState (globals m') = true.
Proof.
  apply (led_history Bench.still 2). reflexivity.
Defined.

(** ** Durations *)

(** X9.  When no operation takes negative time, [calibrate] lasts at
    least 2.56 s (512 pauses of 5 ms) and [setup] at least 8.56 s (its two
    pauses of 3 s and the calibration between them). *)
Theorem startup_takes_its_time :
  forall (E : Env) (m : Machine E),
    testConnection E = true ->
    (forall ev, 0 <= cost E ev) ->
    (exists m',
       calibrate E m = Done tt m' /\
       clock (world m) + 2560000 <= clock (world m')) /\
    (exists m',
       setup E m = Done tt m' /\
       clock (world m) + 8560000 <= clock (world m')).
Proof.
  intros E m Hc Hn. split.
  - destruct (calibrate_led m) as (m' & evs & j & R & _ & _ & _ & _ & _ & K).
    exists m'. split; [exact R|].
    pose proof (total_cost_nonneg E evs Hn). lia.
  - destruct (setup_led m Hc) as (m' & cal & j & evs & R & _ & _ & _ & _ & _ & _ & K & _).
    exists m'. split; [exact R|].
    pose proof (total_cost_nonneg E evs Hn). lia.
Qed.

Lemma startup_takes_its_time_witness :
  (exists m',
     calibrate Bench.still (power_on Bench.still) = Done tt m' /\
     clock (world (power_on Bench.still)) + 2560000 <= clock (world m')) /\
  (exists m',
     setup Bench.still (power_on Bench.still) = Done tt m' /\
     clock (world (power_on Bench.still)) + 8560000 <= clock (world m')).
Proof.
  apply (startup_takes_its_time Bench.still (power_on Bench.still)).
  - reflexivity.
  - intros ev. cbn. lia.
Defined.

Lemma filter_is_sampling_not_led l :
  filter is_sampling (filter not_led l) = filter is_sampling l.
Proof.
  induction l as [|e l IH]; [reflexivity|].
  destruct e; cbn; rewrite ?IH; reflexivity.
Qed.

Lemma filter_is_sampling_sampling readings n : forall k,
  filter is_sampling (sampling readings k n) = sampling readings k n.
Proof.
  unfold sampling. induction n as [|n IH]; intros k; [reflexivity|].
  cbn. rewrite IH. reflexivity.
Qed.

(** X10.  The first pass through [loop] measures the time since the clock
    reading that [setup] stores in [oldTime], not since power-on.  That
    reading is taken after the first pause of 3 s, the 512 sampling passes
    of [calibrate] and the second pause of 3 s, so no earlier than 8.56 s
    plus the time of the operations before it when no operation takes
    negative time; no pause and no sensor read comes after it in [setup];
    and the first elapsed time is the time from it to the start of
    [loop], modulo 2^32: the seconds spent calibrating are not in it. *)
Theorem first_elapsed_time_excludes_setup :
  forall (E : Env),
    testConnection E = true ->
    (forall ev, 0 <= cost E ev) ->
    exists m0 c1 m1 before after t0,
      setup E (power_on E) = Done tt m0 /\
      loop E m0 = Done c1 m1 /\
      trace (world m0) = before ++ EvMicros (oldTime (globals m0)) :: after /\
      filter is_sampling before
      = EvDelay 3000 :: sampling (sensor E) 0 512 ++ [EvDelay 3000] /\
      filter is_sampling after = [] /\
      total_cost E before + 8560000 <= t0 /\
      oldTime (globals m0) = uint32 t0 /\
      8560000 <= t0 <= clock (world m0) /\
      c_dt_usec c1 = uint32 (clock (world m0) - t0).
Proof.
  intros E Hc Hn.
  destruct (setup_led (power_on E) Hc)
    as (m0 & cal & j & evs & R0 & T0 & Ev & S & _ & _ & _ & K & Ht).
  destruct (loop_run m0) as (c1 & m1 & R1 & C1).
  rewrite power_on_trace in T0. cbn [app] in T0.
  change (clock (world (power_on E))) with 0 in K.
  change (reads (world (power_on E))) with 0%nat in S.
  set (menu := if serial_available E then [EvSetupMenu] else []) in *.
  set (before := [EvInitMotors; EvSensorInitialize; EvTestConnection true; EvDelay 3000]
                 ++ cal
                 ++ [EvDigitalWrite false;
                     EvKalmanSetAngle (seed_angle (startPositionIsUp (globals m0)));
                     EvDelay 3000]
                 ++ menu).
  assert (Hevs : evs = before ++ [EvMicros (oldTime (globals m0)); EvDigitalWrite true]).
  { rewrite Ev. unfold before. rewrite <- !app_assoc. reflexivity. }
  assert (Hcost : total_cost E evs
                  = total_cost E before + cost E (EvMicros (oldTime (globals m0)))
                    + cost E (EvDigitalWrite true)).
  { rewrite Hevs, total_cost_app. unfold total_cost at 2. cbn [map fold_right]. lia. }
  pose proof (total_cost_nonneg E before Hn) as Hb.
  pose proof (Hn (EvMicros (oldTime (globals m0)))) as Hm.
  pose proof (Hn (EvDigitalWrite true)) as Hd.
  exists m0, c1, m1, before, [EvDigitalWrite true], (total_cost E before + 8560000).
  split; [exact R0|]. split; [exact R1|].
  split; [rewrite T0, Hevs; reflexivity|].
  split.
  { unfold before. cbn [app filter is_sampling]. rewrite !filter_app.
    rewrite <- (filter_is_sampling_not_led cal), S, filter_is_sampling_sampling.
    cbn [filter is_sampling]. f_equal. f_equal.
    unfold menu. destruct (serial_available E); reflexivity. }
  split; [reflexivity|]. split; [lia|].
  assert (Hold : oldTime (globals m0) = uint32 (total_cost E before + 8560000)).
  { rewrite Ht at 1. f_equal. lia. }
  split; [exact Hold|]. split; [lia|].
  rewrite (cy_dt_usec _ _ _ C1), (cy_time _ _ _ C1), Hold, uint32_sub. reflexivity.
Qed.

Lemma first_elapsed_time_excludes_setup_witness :
  exists m0 c1 m1 before after t0,
    setup Bench.still (power_on Bench.still) = Done tt m0 /\
    loop Bench.still m0 = Done c1 m1 /\
    trace (world m0) = before ++ EvMicros (oldTime (globals m0)) :: after /\
    filter is_sampling before
    = EvDelay 3000 :: sampling (sensor Bench.still) 0 512 ++ [EvDelay 3000] /\
    filter is_sampling after = [] /\
    total_cost Bench.still before + 8560000 <= t0 /\
    oldTime (globals m0) = uint32 t0 /\
    8560000 <= t0 <= clock (world m0) /\
    c_dt_usec c1 = uint32 (clock (world m0) - t0).
Proof.
  apply (first_elapsed_time_excludes_setup Bench.still).
  - reflexivity.
  - intros ev. cbn. lia.
Defined.

Lemma cycle_latency_lower E c raw :
  (forall ev, 0 <= cost E ev) -> 15000 <= cycle_latency E c raw.
Proof.
  intros H. unfold cycle_latency.
  change (fold_right Z.add 0 (map (cost E) (cycle_events c raw)))
    with (total_cost E (cycle_events c raw)).
  pose proof (total_cost_nonneg E (cycle_events c raw) H). lia.
Qed.

Lemma cycle_latency_upper E c raw b :
  (forall ev, 0 <= cost E ev <= b) -> cycle_latency E c raw <= 7 * b + 15000.
Proof.
  intros H. unfold cycle_latency, cycle_events. cbn [map fold_right].
  repeat match goal with
         | |- context [cost E ?e] =>
             lazymatch goal with
             | _ : 0 <= cost E e <= b |- _ => fail
             | _ => pose proof (H e)
             end
         end.
  lia.
Qed.

(** X11.  The elapsed time is right across a wrap of the 32-bit
    microsecond counter: whatever the clock shows, if every operation
    takes between 0 and one second, the time a pass measures is exactly
    the duration of the pass before it, never less than 15 ms. *)
Theorem elapsed_time_survives_counter_wrap :
  forall (E : Env) (m : Machine E),
    (forall ev, 0 <= cost E ev <= 1000000) ->
    exists c1 m1 c2 m2,
      loop E m = Done c1 m1 /\
      loop E m1 = Done c2 m2 /\
      c_dt_usec c2 = clock (world m1) - clock (world m) /\
      15000 <= c_dt_usec c2 <= 7015000.
Proof.
  intros E m Hb.
  destruct (loop_run m) as (c1 & m1 & R1 & C1).
  destruct (loop_run m1) as (c2 & m2 & R2 & C2).
  exists c1, m1, c2, m2. split; [exact R1|]. split; [exact R2|].
  pose proof (cy_clock _ _ _ C1) as K.
  pose proof (cycle_latency_upper E c1 (sensor E (reads (world m))) 1000000 Hb) as U.
  assert (Hn : forall ev, 0 <= cost E ev) by (intros ev; destruct (Hb ev); assumption).
  pose proof (cycle_latency_lower E c1 (sensor E (reads (world m))) Hn) as Lo.
  assert (Hd : c_dt_usec c2 = clock (world m1) - clock (world m)).
  { rewrite (cy_dt_usec _ _ _ C2), (cy_time _ _ _ C2), (cy_oldTime _ _ _ C1),
      (cy_time _ _ _ C1), uint32_sub.
    unfold uint32, wrap_unsigned. apply Z.mod_small.
    change (2 ^ 32) with 4294967296. lia. }
  split; [exact Hd|]. lia.
Qed.

Lemma elapsed_time_survives_counter_wrap_witness :
  exists c1 m1 c2 m2,
    loop Bench.still (near_wrap) = Done c1 m1 /\
    loop Bench.still m1 = Done c2 m2 /\
    c_dt_usec c2 = clock (world m1) - clock (world near_wrap) /\
    15000 <= c_dt_usec c2 <= 7015000.
Proof.
  apply (elapsed_time_survives_counter_wrap Bench.still near_wrap).
  intros ev. cbn. lia.
Defined.

Lemma cycles_clock {E : Env} (m : Machine E) cs m' :
  (forall ev, 0 <= cost E ev) ->
  cycles_from m cs m' ->
  clock (world m) + 15000 * Z.of_nat (length cs) <= clock (world m').
Proof.
  intros Hn. induction 1 as [m | m c m1 cs m2 H1 H2 IH].
  - cbn. lia.
  - pose proof (cy_clock _ _ _ H1) as K.
    pose proof (cycle_latency_lower E c (sensor E (reads (world m))) Hn).
    cbn [length]. lia.
Qed.

(** X12.  [loop] cannot run faster than its pause allows: when no
    operation takes negative time, [n] passes take at least [n] times
    15 ms. *)
Theorem passes_take_at_least_15ms :
  forall (E : Env) (n : nat) (m : Machine E),
    (forall ev, 0 <= cost E ev) ->
    exists cs m',
      loops E n m = Done cs m' /\
      length cs = n /\
      clock (world m) + 15000 * Z.of_nat n <= clock (world m').
Proof.
  intros E n m Hn.
  destruct (loops_run n m) as (cs & m' & R & L & C).
  exists cs, m'. split; [exact R|]. split; [exact L|].
  rewrite <- L. apply cycles_clock; assumption.
Qed.

Lemma passes_take_at_least_15ms_witness :
  exists cs m',
    loops Bench.still 4 (power_on Bench.still) = Done cs m' /\
    length cs = 4%nat /\
    clock (world (power_on Bench.still)) + 15000 * Z.of_nat 4 <= clock (world m').
Proof.
  apply (passes_take_at_least_15ms Bench.still 4 (power_on Bench.still)).
  intros ev. cbn. lia.
Defined.

(** ** More on the gate *)

(** X13.  The angles at which the gate lets the motors run form an
    interval around zero: if it forwards at some angle, it forwards at
    every angle that is a number of no greater magnitude. *)
Theorem gate_forwards_on_an_interval :
  forall (a b cmd : float),
    valid a -> valid b ->
    is_number a = true ->
    (Qabs (F2Q a) <= Qabs (F2Q b))%Q ->
    motor_gate b cmd = RunMotors cmd ->
    motor_gate a cmd = RunMotors cmd.
Proof.
  intros a b cmd Ha Hb Hn Hle Hrun.
  destruct (motor_gate_spec b cmd Hb) as [Hb1 _].
  destruct (motor_gate_spec a cmd Ha) as [Ha1 _].
  apply Ha1. apply Hb1 in Hrun. destruct Hrun as [_ Hlt].
  split; [exact Hn|]. eapply Qle_lt_trans; eassumption.
Qed.

Lemma gate_forwards_on_an_interval_witness :
  motor_gate (fneg (literal 15 1)) (of_int 100) = RunMotors (of_int 100).
Proof.
  apply (gate_forwards_on_an_interval (fneg (literal 15 1)) (literal 299 10) (of_int 100)).
  - vm_compute. reflexivity.
  - vm_compute. reflexivity.
  - reflexivity.
  - vm_compute. discriminate.
  - vm_compute. reflexivity.
Defined.

(** ** Elapsed times add up *)

Lemma uint32_add_elapsed x t s :
  uint32 (x + (uint32 (t - x) + s)) = uint32 (t + s).
Proof.
  unfold uint32, wrap_unsigned.
  rewrite Z.add_assoc, (Z.add_comm x), <- Z.add_assoc, Zplus_mod_idemp_l.
  f_equal. lia.
Qed.

Lemma uint32_add_r x y : uint32 (x + y) = uint32 (uint32 x + y).
Proof. unfold uint32, wrap_unsigned. rewrite Zplus_mod_idemp_l. reflexivity. Qed.

Lemma cycles_measured_time {E : Env} (m : Machine E) cs m' :
  cycles_from m cs m' ->
  uint32 (oldTime (globals m) + measured_time cs) = uint32 (oldTime (globals m')).
Proof.
  induction 1 as [m | m c m1 cs m2 H1 H2 IH].
  - unfold measured_time. cbn. rewrite Z.add_0_r. reflexivity.
  - rewrite <- IH, (cy_oldTime _ _ _ H1).
    unfold measured_time. cbn [map fold_right].
    rewrite (cy_dt_usec _ _ _ H1). apply uint32_add_elapsed.
Qed.

(** X14.  No time is lost or counted twice between passes: the elapsed
    times measured by any number of consecutive passes add up, modulo
    2^32, to the difference between the timestamp the last pass leaves in
    [oldTime] and the one the first pass found there. *)
Theorem elapsed_times_add_up :
  forall (E : Env) (n : nat) (m : Machine E),
    exists cs m',
      loops E n m = Done cs m' /\
      length cs = n /\
      uint32 (oldTime (globals m) + measured_time cs) = uint32 (oldTime (globals m')).
Proof.
  intros E n m.
  destruct (loops_run n m) as (cs & m' & R & L & C).
  exists cs, m'. split; [exact R|]. split; [exact L|].
  apply cycles_measured_time. exact C.
Qed.

(** ** A constant bias *)

Lemma axis_total_shift a r1 r2 b n : forall k1 k2,
  (forall i, (i < n)%nat -> get a (r2 (k2 + i)%nat) = get a (r1 (k1 + i)%nat) + b) ->
  axis_total a r2 k2 n = axis_total a r1 k1 n + Z.of_nat n * b.
Proof.
  induction n as [|n IH]; intros k1 k2 H.
  - unfold axis_total. cbn. lia.
  - rewrite !axis_total_S.
    pose proof (H 0%nat ltac:(lia)) as H0. rewrite !Nat.add_0_r in H0.
    rewrite (IH (S k1) (S k2)).
    + lia.
    + intros i Hi. specialize (H (S i) ltac:(lia)).
      rewrite !Nat.add_succ_r in H. exact H.
Qed.

(** X15.  A constant bias on an axis other than the gravity axis is
    measured exactly: if the 512 readings of one calibration are those of
    another plus a constant [b] on that axis, its offset is the other's
    plus [b], so that the corrected readings of the two agree. *)
Theorem constant_bias_shifts_the_offset :
  forall (E1 E2 : Env) (m1 : Machine E1) (m2 : Machine E2) (a : axis) (b : Z),
    a <> AX ->
    (forall i, sample_in_int16 (sensor E1 i)) ->
    (forall i, sample_in_int16 (sensor E2 i)) ->
    (forall i, (i < 512)%nat ->
       get a (sensor E2 (reads (world m2) + i)%nat)
       = get a (sensor E1 (reads (world m1) + i)%nat) + b) ->
    exists m1' m2',
      calibrate E1 m1 = Done tt m1' /\
      calibrate E2 m2 = Done tt m2' /\
      get a (offsets (globals m2')) = get a (offsets (globals m1')) + b /\
      forall raw,
        int16 (raw + b - get a (offsets (globals m2')))
        = int16 (raw - get a (offsets (globals m1'))).
Proof.
  intros E1 E2 m1 m2 a b Ha H1 H2 Hb.
  destruct (calibrate_run m1) as (m1' & ev1 & R1 & O1 & _).
  destruct (calibrate_run m2) as (m2' & ev2 & R2 & O2 & _).
  exists m1', m2'. split; [exact R1|]. split; [exact R2|].
  assert (Ho : get a (offsets (globals m2')) = get a (offsets (globals m1')) + b).
  { rewrite O1, O2, (calibration_offsets a _ _ H1), (calibration_offsets a _ _ H2).
    rewrite (axis_total_shift a (sensor E1) (sensor E2) b 512 _ _ Hb).
    change (Z.of_nat 512) with 512.
    destruct a; try congruence; rewrite (Z.mul_comm 512 b); apply Z.div_add; lia. }
  split; [exact Ho|].
  intros raw. rewrite Ho. f_equal. lia.
Qed.

Lemma constant_bias_shifts_the_offset_witness :
  exists m1' m2',
    calibrate Bench.still (power_on Bench.still) = Done tt m1' /\
    calibrate (Bench.env true (Bench.steady (MkSample 0 0 0 0 7 0)))
      (power_on (Bench.env true (Bench.steady (MkSample 0 0 0 0 7 0)))) = Done tt m2' /\
    get GY (offsets (globals m2')) = get GY (offsets (globals m1')) + 7 /\
    forall raw,
      int16 (raw + 7 - get GY (offsets (globals m2')))
      = int16 (raw - get GY (offsets (globals m1'))).
Proof.
  apply (constant_bias_shifts_the_offset Bench.still
           (Bench.env true (Bench.steady (MkSample 0 0 0 0 7 0)))
           (power_on Bench.still)
           (power_on (Bench.env true (Bench.steady (MkSample 0 0 0 0 7 0)))) GY 7).
  - discriminate.
  - intros i. unfold sample_in_int16, in_int16. cbn. lia.
  - intros i. unfold sample_in_int16, in_int16. cbn. lia.
  - intros i Hi. reflexivity.
Defined.
